(** * Shape markups: the control-point model of [vtkMRMLMarkupsShapeNode]

    A shallow embedding of [Shape/MRML/vtkMRMLMarkupsShapeNode.cxx] and
    the properties its specification states about it.

    Conventions of the embedding.
    - A C++ [int] is a [Z]; the indices and counts handled here stay far
      from the 32-bit bounds.  [%] on [int] is [Z.rem] (truncated).
    - A C++ [double] is a [double] below: a real number, or one of the
      IEEE special values.  The embedding keeps what the code's guards
      depend on: the comparisons, the division by zero, the square root
      of a negative number and the way a NaN spreads.  An operation on
      finite operands is taken at its exact real result; the rounding,
      the overflow and the underflow of binary64 are not modelled.  The
      statements about the node are therefore those that hold whatever
      the rounding: which guard returns, which control point is written
      and with which expression of the code, where a NaN appears.  A
      computed value is stated as a number only where binary64 computes
      it exactly: the zero distance between two equal positions, and
      sample nodes whose intermediate results are small integers or
      halves.  The lemmas on [real3] positions ([distance_real3] and the
      like) are facts of the model, used to evaluate it at such inputs.
    - The node is a record; a member function that mutates [this] takes
      the node and returns the new node.
    - The control point store is the part of the node inherited from
      the host's markups node: a list of control points, with the few
      member functions the shape node calls.  Positions are world
      positions; no parent transform is modelled. *)

From Stdlib Require Import Reals Lra Lia ZArith String Bool List.
Import ListNotations.

(* ================================================================== *)
(** ** Doubles *)

Module Double.

(** A [double]: a real, an infinity with its sign, or not-a-number.
    Zero carries no sign: a division by zero takes the sign of the
    numerator alone. *)
Inductive double : Type :=
| Fin (r : R)
| Inf (negative : bool)
| NaN.

Definition is_negative (r : R) : bool :=
  if Rlt_dec r 0 then true else false.

Definition dadd (x y : double) : double :=
  match x, y with
  | Fin a, Fin b => Fin (a + b)
  | Fin _, Inf s => Inf s
  | Inf s, Fin _ => Inf s
  | Inf s, Inf t => if Bool.eqb s t then Inf s else NaN
  | _, _ => NaN
  end.

Definition dsub (x y : double) : double :=
  match x, y with
  | Fin a, Fin b => Fin (a - b)
  | Fin _, Inf s => Inf (negb s)
  | Inf s, Fin _ => Inf s
  | Inf s, Inf t => if Bool.eqb s t then NaN else Inf s
  | _, _ => NaN
  end.

Definition dmul (x y : double) : double :=
  match x, y with
  | Fin a, Fin b => Fin (a * b)
  | Fin a, Inf s => if Req_dec_T a 0 then NaN else Inf (xorb s (is_negative a))
  | Inf s, Fin a => if Req_dec_T a 0 then NaN else Inf (xorb s (is_negative a))
  | Inf s, Inf t => Inf (xorb s t)
  | _, _ => NaN
  end.

Definition ddiv (x y : double) : double :=
  match x, y with
  | Fin a, Fin b =>
      if Req_dec_T b 0
      then (if Req_dec_T a 0 then NaN else Inf (is_negative a))
      else Fin (a / b)
  | Fin _, Inf _ => Fin 0
  | Inf s, Fin b => Inf (xorb s (is_negative b))
  | _, _ => NaN
  end.

(** [std::sqrt]. *)
Definition dsqrt (x : double) : double :=
  match x with
  | Fin a => if Rlt_dec a 0 then NaN else Fin (sqrt a)
  | Inf false => Inf false
  | _ => NaN
  end.

(** [x <= y]; false as soon as an operand is not a number. *)
Definition dle (x y : double) : bool :=
  match x, y with
  | Fin a, Fin b => if Rle_dec a b then true else false
  | Fin _, Inf s => negb s
  | Inf s, Fin _ => s
  | Inf s, Inf t => s || negb t
  | _, _ => false
  end.

(** [x < y]. *)
Definition dlt (x y : double) : bool :=
  match x, y with
  | Fin a, Fin b => if Rlt_dec a b then true else false
  | Fin _, Inf s => negb s
  | Inf s, Fin _ => s
  | Inf s, Inf t => s && negb t
  | _, _ => false
  end.

(** [x == y]. *)
Definition deq (x y : double) : bool :=
  match x, y with
  | Fin a, Fin b => if Req_dec_T a b then true else false
  | Inf s, Inf t => Bool.eqb s t
  | _, _ => false
  end.

(** [x >= y] and [x > y] are the flipped comparisons. *)
Definition dge (x y : double) : bool := dle y x.
Definition dgt (x y : double) : bool := dlt y x.

End Double.
Export Double.

(** The operations that branch on a real comparison are unfolded by
    name only. *)
Arguments ddiv : simpl never.
Arguments dsqrt : simpl never.
Arguments dle : simpl never.
Arguments dlt : simpl never.
Arguments deq : simpl never.

Declare Scope double_scope.
Delimit Scope double_scope with D.
Bind Scope double_scope with double.
Infix "+" := dadd : double_scope.
Infix "-" := dsub : double_scope.
Infix "*" := dmul : double_scope.
Infix "/" := ddiv : double_scope.
Infix "<=?" := dle : double_scope.
Infix "<?" := dlt : double_scope.
Infix ">=?" := dge (at level 70) : double_scope.
Infix ">?" := dgt (at level 70) : double_scope.
Infix "==?" := deq (at level 70) : double_scope.

(* ================================================================== *)
(** ** [double[3]] and the two [vtkMath] functions the node calls *)

(** A [double p[3]]: [p[0]], [p[1]], [p[2]]. *)
Record Vec3 : Type := mkVec3 { at0 : double; at1 : double; at2 : double }.

(** [double p[3] = { 0.0 };] *)
Definition zero3 : Vec3 := mkVec3 (Fin 0) (Fin 0) (Fin 0).

Module vtkMath.

(** [vtkMath::Distance2BetweenPoints]: the squared distance. *)
Definition Distance2BetweenPoints (p1 p2 : Vec3) : double :=
  ((at0 p1 - at0 p2) * (at0 p1 - at0 p2)
   + (at1 p1 - at1 p2) * (at1 p1 - at1 p2)
   + (at2 p1 - at2 p2) * (at2 p1 - at2 p2))%D.

(** [vtkMath::Cross(a, b, c)]: the value stored in [c]. *)
Definition Cross (a b : Vec3) : Vec3 :=
  mkVec3 (at1 a * at2 b - at2 a * at1 b)%D
         (at2 a * at0 b - at0 a * at2 b)%D
         (at0 a * at1 b - at1 a * at0 b)%D.

End vtkMath.

(* ================================================================== *)
(** ** The node and the control point store it inherits *)

(** Modelled from the spec: the enumerators of the missing header
    [vtkMRMLMarkupsShapeNode.h], in the order the specification lists
    the shape kinds. *)
Definition Sphere : Z := 0.
Definition Ring : Z := 1.
Definition Disk : Z := 2.
Definition Tube : Z := 3.

(** Modelled from the spec: the radius modes of the missing header, with
    the values the sibling ring node gives them
    ([Centered = 0, Circumferential]). *)
Definition Centered : Z := 0.
Definition Circumferential : Z := 1.

(** Modelled from the spec: a control point of the host's store, a 3D
    position plus a boolean "defined" flag. *)
Record ControlPoint : Type := mkControlPoint
  { Position : Vec3;
    Defined : bool }.

(** What the code sets on a [vtkMRMLMeasurementShape] before adding it;
    [DisplayCoefficient] is 1 unless the code sets it. *)
Record Measurement : Type := mkMeasurement
  { Name : string;
    Units : string;
    DisplayCoefficient : R;
    PrintFormat : string;
    Enabled : bool }.

(** The node [ResliceNode] points to: a slice node, which records the
    arguments of the last [SetSliceToRASByNTP] (normal, transverse point,
    point, orientation), or a node of another class. *)
Inductive vtkMRMLNode : Type :=
| SliceNode (SliceToRASByNTP : option (Vec3 * Vec3 * Vec3 * Z))
| OtherNode.

Record ShapeNode : Type := mkShapeNode
  { ShapeName : Z;
    RadiusMode : Z;
    RequiredNumberOfControlPoints : Z;
    MaximumNumberOfControlPoints : Z;
    Measurements : list Measurement;
    RemovingPairControlPoint : bool;
    ControlPoints : list ControlPoint;
    ResliceNode : option vtkMRMLNode }.

Definition set_ShapeName (v : Z) (s : ShapeNode) : ShapeNode :=
  mkShapeNode v (RadiusMode s) (RequiredNumberOfControlPoints s)
    (MaximumNumberOfControlPoints s) (Measurements s)
    (RemovingPairControlPoint s) (ControlPoints s) (ResliceNode s).

Definition set_RequiredNumberOfControlPoints (v : Z) (s : ShapeNode) : ShapeNode :=
  mkShapeNode (ShapeName s) (RadiusMode s) v
    (MaximumNumberOfControlPoints s) (Measurements s)
    (RemovingPairControlPoint s) (ControlPoints s) (ResliceNode s).

Definition set_MaximumNumberOfControlPoints (v : Z) (s : ShapeNode) : ShapeNode :=
  mkShapeNode (ShapeName s) (RadiusMode s) (RequiredNumberOfControlPoints s)
    v (Measurements s)
    (RemovingPairControlPoint s) (ControlPoints s) (ResliceNode s).

Definition set_Measurements (v : list Measurement) (s : ShapeNode) : ShapeNode :=
  mkShapeNode (ShapeName s) (RadiusMode s) (RequiredNumberOfControlPoints s)
    (MaximumNumberOfControlPoints s) v
    (RemovingPairControlPoint s) (ControlPoints s) (ResliceNode s).

Definition set_RemovingPairControlPoint (v : bool) (s : ShapeNode) : ShapeNode :=
  mkShapeNode (ShapeName s) (RadiusMode s) (RequiredNumberOfControlPoints s)
    (MaximumNumberOfControlPoints s) (Measurements s)
    v (ControlPoints s) (ResliceNode s).

Definition set_ControlPoints (v : list ControlPoint) (s : ShapeNode) : ShapeNode :=
  mkShapeNode (ShapeName s) (RadiusMode s) (RequiredNumberOfControlPoints s)
    (MaximumNumberOfControlPoints s) (Measurements s)
    (RemovingPairControlPoint s) v (ResliceNode s).

Definition set_ResliceNode (v : option vtkMRMLNode) (s : ShapeNode) : ShapeNode :=
  mkShapeNode (ShapeName s) (RadiusMode s) (RequiredNumberOfControlPoints s)
    (MaximumNumberOfControlPoints s) (Measurements s)
    (RemovingPairControlPoint s) (ControlPoints s) v.

(** *** The store: the member functions of [vtkMRMLMarkupsNode] the
    shape node calls.  Modelled from the spec: the host's store is an
    ordered sequence of positions, each defined or undefined, with
    count, get, set and remove by index; an index out of range is
    reported and nothing else happens. *)

(** The position of [n] in a list, when [n] is a valid index of it. *)
Definition valid_index {A : Type} (l : list A) (n : Z) : option nat :=
  if (0 <=? n)%Z && (n <? Z.of_nat (length l))%Z
  then Some (Z.to_nat n) else None.

Fixpoint replace_nth {A : Type} (l : list A) (i : nat) (f : A -> A) : list A :=
  match l, i with
  | [], _ => []
  | a :: l', O => f a :: l'
  | a :: l', S i' => a :: replace_nth l' i' f
  end.

Fixpoint remove_nth {A : Type} (l : list A) (i : nat) : list A :=
  match l, i with
  | [], _ => []
  | _ :: l', O => l'
  | a :: l', S i' => a :: remove_nth l' i'
  end.

Definition GetNumberOfControlPoints (s : ShapeNode) : Z :=
  Z.of_nat (length (ControlPoints s)).

(** The store of the specification has no "preview" status, so
    [includePreview] does not change the count. *)
Definition GetNumberOfDefinedControlPoints (includePreview : bool) (s : ShapeNode) : Z :=
  Z.of_nat (length (filter Defined (ControlPoints s))).

Definition GetNumberOfUndefinedControlPoints (s : ShapeNode) : Z :=
  Z.of_nat (length (filter (fun cp => negb (Defined cp)) (ControlPoints s))).

(** [GetNthControlPointPositionWorld(n, buffer)]: the content of
    [buffer] after the call; it is left as it was when [n] is out of
    range. *)
Definition GetNthControlPointPositionWorld (s : ShapeNode) (n : Z) (buffer : Vec3) : Vec3 :=
  match valid_index (ControlPoints s) n with
  | Some i => match nth_error (ControlPoints s) i with
              | Some cp => Position cp
              | None => buffer
              end
  | None => buffer
  end.

(** [SetNthControlPointPositionWorld(n, position)]: the point is placed,
    which also marks it defined. *)
Definition SetNthControlPointPositionWorld (n : Z) (position : Vec3) (s : ShapeNode) : ShapeNode :=
  match valid_index (ControlPoints s) n with
  | Some i =>
      set_ControlPoints
        (replace_nth (ControlPoints s) i (fun _ => mkControlPoint position true)) s
  | None => s
  end.

Definition RemoveNthControlPoint (n : Z) (s : ShapeNode) : ShapeNode :=
  match valid_index (ControlPoints s) n with
  | Some i => set_ControlPoints (remove_nth (ControlPoints s) i) s
  | None => s
  end.

Definition RemoveAllControlPoints (s : ShapeNode) : ShapeNode :=
  set_ControlPoints [] s.

(** The scan of [GetClosestControlPointIndexToPositionWorld]: a later
    point replaces the best one only when strictly nearer. *)
Fixpoint closest_scan (pos : Vec3) (points : list ControlPoint)
    (pointIndex indexOfClosest : Z) (closestDistance2 : double) : Z :=
  match points with
  | [] => indexOfClosest
  | cp :: rest =>
      let distance2 := vtkMath.Distance2BetweenPoints pos (Position cp) in
      if (distance2 <? closestDistance2)%D || (indexOfClosest <? 0)%Z
      then closest_scan pos rest (pointIndex + 1)%Z pointIndex distance2
      else closest_scan pos rest (pointIndex + 1)%Z indexOfClosest closestDistance2
  end.

(** [GetClosestControlPointIndexToPositionWorld(pos)]: the index of the
    control point nearest to [pos], the first one among equals, and -1
    for an empty store. *)
Definition GetClosestControlPointIndexToPositionWorld (s : ShapeNode) (pos : Vec3) : Z :=
  closest_scan pos (ControlPoints s) 0%Z (-1)%Z (Fin 0).

(* ================================================================== *)
(** ** Measurement sets *)

Definition lengthMeasurement (name : string) (enabled : bool) : Measurement :=
  mkMeasurement name "mm" 1 "%-#4.4g%s" enabled.

Definition areaMeasurement (name : string) : Measurement :=
  mkMeasurement name "cm2" (1 / 100) "%-#4.4g%s" false.

Definition volumeMeasurement (enabled : bool) : Measurement :=
  mkMeasurement "volume" "cm3" (1 / 100) "%-#4.4g%s" enabled.

(** Each [Force...Measurements] empties the list, then adds its items in
    order.  [UpdateAllMeasurements] recomputes displayed values, which
    are not part of this model. *)
Definition ForceDiskMeasurements (s : ShapeNode) : ShapeNode :=
  set_Measurements
    [ lengthMeasurement "innerRadius" true;
      lengthMeasurement "outerRadius" true;
      lengthMeasurement "width" false;
      areaMeasurement "area";
      areaMeasurement "innerArea";
      areaMeasurement "outerArea" ] s.

Definition ForceRingMeasurements (s : ShapeNode) : ShapeNode :=
  set_Measurements [ lengthMeasurement "radius" true; areaMeasurement "area" ] s.

Definition ForceSphereMeasurements (s : ShapeNode) : ShapeNode :=
  set_Measurements
    [ lengthMeasurement "radius" true; areaMeasurement "area";
      volumeMeasurement false ] s.

Definition ForceTubeMeasurements (s : ShapeNode) : ShapeNode :=
  set_Measurements [ areaMeasurement "area"; volumeMeasurement true ] s.

(* ================================================================== *)
(** ** [SetShapeName] *)

(** The loop
    [while (GetNumberOfControlPoints() > Maximum) RemoveNthControlPoint(Maximum);]
    Each turn that removes a point shortens the store, so the number of
    points is fuel enough. *)
Fixpoint truncate_loop (fuel : nat) (s : ShapeNode) : ShapeNode :=
  match fuel with
  | O => s
  | S fuel' =>
      if (GetNumberOfControlPoints s >? MaximumNumberOfControlPoints s)%Z
      then truncate_loop fuel'
             (RemoveNthControlPoint (MaximumNumberOfControlPoints s) s)
      else s
  end.

(** The statements after the [switch]. *)
Definition after_switch (s : ShapeNode) : ShapeNode :=
  if (MaximumNumberOfControlPoints s >? 0)%Z
  then truncate_loop (length (ControlPoints s)) s
  else RemoveAllControlPoints s.

(** [SetShapeName(shapeName)].  The [Tube] case has no [break]: control
    falls into [default], which reports "Unknown shape." and returns, so
    the statements after the [switch] do not run for it. *)
Definition SetShapeName (shapeName : Z) (s : ShapeNode) : ShapeNode :=
  let s := set_ShapeName shapeName s in
  if (shapeName =? Sphere)%Z then
    after_switch
      (ForceSphereMeasurements
         (set_MaximumNumberOfControlPoints 2
            (set_RequiredNumberOfControlPoints 2 s)))
  else if (shapeName =? Ring)%Z then
    after_switch
      (ForceRingMeasurements
         (set_MaximumNumberOfControlPoints 3
            (set_RequiredNumberOfControlPoints 3 s)))
  else if (shapeName =? Disk)%Z then
    after_switch
      (ForceDiskMeasurements
         (set_MaximumNumberOfControlPoints 3
            (set_RequiredNumberOfControlPoints 3 s)))
  else if (shapeName =? Tube)%Z then
    ForceTubeMeasurements
      (set_MaximumNumberOfControlPoints (-1)
         (set_RequiredNumberOfControlPoints (-1) s))
  else
    s.

(* ================================================================== *)
(** ** Disk spacing and the radius setters *)

(** The four results [DescribeDiskPointSpacing] stores through its
    arguments when it returns [true]. *)
Record DiskSpacing : Type := mkDiskSpacing
  { closestPoint : Vec3;
    farthestPoint : Vec3;
    innerRadius : double;
    outerRadius : double }.

(** [DescribeDiskPointSpacing]: [None] is the [false] return, which
    leaves the four arguments as they were. *)
Definition DescribeDiskPointSpacing (s : ShapeNode) : option DiskSpacing :=
  if negb (ShapeName s =? Disk)%Z then None
  else if negb (GetNumberOfDefinedControlPoints true s =? 3)%Z then None
  else
    let p1 := GetNthControlPointPositionWorld s 0 zero3 in
    let p2 := GetNthControlPointPositionWorld s 1 zero3 in
    let p3 := GetNthControlPointPositionWorld s 2 zero3 in
    let distance2 := dsqrt (vtkMath.Distance2BetweenPoints p1 p2) in
    let distance3 := dsqrt (vtkMath.Distance2BetweenPoints p1 p3) in
    if (distance2 <=? distance3)%D
    then Some (mkDiskSpacing p2 p3 distance2 distance3)
    else Some (mkDiskSpacing p3 p2 distance3 distance2).

(** [FindLinearCoordinateByDistance(p1, p2, result, difference)]: the
    value stored in [result]. *)
Definition FindLinearCoordinateByDistance (p1 p2 : Vec3) (difference : double) : Vec3 :=
  let rp2 := mkVec3 (at0 p2 - at0 p1)%D (at1 p2 - at1 p1)%D (at2 p2 - at2 p1)%D in
  let lineLength := dsqrt (vtkMath.Distance2BetweenPoints p1 p2) in
  let factor := (Fin 1 + difference / lineLength)%D in
  mkVec3 (at0 p1 + at0 rp2 * factor)%D
         (at1 p1 + at1 rp2 * factor)%D
         (at2 p1 + at2 rp2 * factor)%D.

Definition SetRadius (radius : double) (s : ShapeNode) : ShapeNode :=
  if (ShapeName s =? Disk)%Z then s
  else if (radius <=? Fin 0)%D then s
  else
    let rasP1 := GetNthControlPointPositionWorld s 0 zero3 in
    let rasP2 := GetNthControlPointPositionWorld s 1 zero3 in
    let lineLength := dsqrt (vtkMath.Distance2BetweenPoints rasP1 rasP2) in
    let currentRadius :=
      if (RadiusMode s =? Centered)%Z then lineLength else (lineLength / Fin 2)%D in
    let difference := (radius - currentRadius)%D in
    let rasP2Shifted := FindLinearCoordinateByDistance rasP1 rasP2 difference in
    let s1 := SetNthControlPointPositionWorld 1 rasP2Shifted s in
    if (RadiusMode s1 =? Circumferential)%Z then
      let rasP1Shifted := FindLinearCoordinateByDistance rasP2 rasP1 difference in
      SetNthControlPointPositionWorld 0 rasP1Shifted s1
    else s1.

Definition SetInnerRadius (radius : double) (s : ShapeNode) : ShapeNode :=
  if negb (ShapeName s =? Disk)%Z then s
  else if (radius <=? Fin 0)%D then s
  else
    match DescribeDiskPointSpacing s with
    | None => s
    | Some d =>
        if (radius >=? outerRadius d)%D then s
        else
          let rasP1 := GetNthControlPointPositionWorld s 0 zero3 in
          let difference := (radius - innerRadius d)%D in
          let closestPointShifted :=
            FindLinearCoordinateByDistance rasP1 (closestPoint d) difference in
          SetNthControlPointPositionWorld
            (GetClosestControlPointIndexToPositionWorld s (closestPoint d))
            closestPointShifted s
    end.

Definition SetOuterRadius (radius : double) (s : ShapeNode) : ShapeNode :=
  if negb (ShapeName s =? Disk)%Z then s
  else if (radius <=? Fin 0)%D then s
  else
    match DescribeDiskPointSpacing s with
    | None => s
    | Some d =>
        if (radius <=? innerRadius d)%D then s
        else
          let rasP1 := GetNthControlPointPositionWorld s 0 zero3 in
          let difference := (radius - outerRadius d)%D in
          let farthestPointShifted :=
            FindLinearCoordinateByDistance rasP1 (farthestPoint d) difference in
          SetNthControlPointPositionWorld
            (GetClosestControlPointIndexToPositionWorld s (farthestPoint d))
            farthestPointShifted s
    end.

(* ================================================================== *)
(** ** Reslicing *)

(** [rasNormal[0] == 0.0 && rasNormal[1] == 0.0 && rasNormal[2] == 0.0] *)
Definition is_zero_vector (v : Vec3) : bool :=
  (at0 v ==? Fin 0)%D && (at1 v ==? Fin 0)%D && (at2 v ==? Fin 0)%D.

(** The shared tail of [ResliceToPlane] and [ResliceToLine]:
    [SetSliceToRASByNTP(normal, rasP2, rasP1, 0)] on the slice node. *)
Definition reslice_with (rasNormal rasP2 rasP1 : Vec3) (s : ShapeNode) : ShapeNode :=
  set_ResliceNode (Some (SliceNode (Some (rasNormal, rasP2, rasP1, 0%Z)))) s.

Definition ResliceToPlane (s : ShapeNode) : ShapeNode :=
  match ResliceNode s with
  | None => s
  | Some OtherNode => s
  | Some (SliceNode _) =>
      let rasP1 := GetNthControlPointPositionWorld s 0 zero3 in
      let rasP2 := GetNthControlPointPositionWorld s 1 zero3 in
      let rasP3 := GetNthControlPointPositionWorld s 2 zero3 in
      let rRasP2 := mkVec3 (at0 rasP2 - at0 rasP1)%D (at1 rasP2 - at1 rasP1)%D
                           (at2 rasP2 - at2 rasP1)%D in
      let rRasP3 := mkVec3 (at0 rasP3 - at0 rasP1)%D (at1 rasP3 - at1 rasP1)%D
                           (at2 rasP3 - at2 rasP1)%D in
      let rasNormal := vtkMath.Cross rRasP2 rRasP3 in
      if is_zero_vector rasNormal then s
      else reslice_with rasNormal rasP2 rasP1 s
  end.

Definition ResliceToLine (s : ShapeNode) : ShapeNode :=
  match ResliceNode s with
  | None => s
  | Some OtherNode => s
  | Some (SliceNode _) =>
      let rasP1 := GetNthControlPointPositionWorld s 0 zero3 in
      let rasP2 := GetNthControlPointPositionWorld s 1 zero3 in
      let rasNormal := vtkMath.Cross rasP1 rasP2 in
      if is_zero_vector rasNormal then s
      else reslice_with rasNormal rasP2 rasP1 s
  end.

Definition ResliceToControlPoints (s : ShapeNode) : ShapeNode :=
  if (ShapeName s =? Sphere)%Z then ResliceToLine s
  else if (ShapeName s =? Ring)%Z then ResliceToPlane s
  else if (ShapeName s =? Disk)%Z then ResliceToPlane s
  else if (ShapeName s =? Tube)%Z then s
  else s.

(* ================================================================== *)
(** ** Tube: pairing and the radius at a control point *)

(** [OnPointPositionUndefined]: the observer's callback, with [client]
    the node itself (the constructor registers [this]) and
    [removedIndex] the index carried by the event.  The notification
    that the store raises for the callback's own removal is one more
    call of this function, on the node the callback leaves. *)
Definition OnPointPositionUndefined (removedIndex : Z) (client : ShapeNode) : ShapeNode :=
  if negb (ShapeName client =? Tube)%Z
     || (GetNumberOfUndefinedControlPoints client >? 0)%Z
  then client
  else if RemovingPairControlPoint client
          || (GetNumberOfControlPoints client =? 0)%Z
  then set_RemovingPairControlPoint false client
  else if (Z.rem removedIndex 2 =? 0)%Z then
    if (GetNumberOfControlPoints client >? removedIndex)%Z
    then RemoveNthControlPoint removedIndex
           (set_RemovingPairControlPoint true client)
    else set_RemovingPairControlPoint false client
  else
    RemoveNthControlPoint (removedIndex - 1)%Z
      (set_RemovingPairControlPoint true client).

(** The two positions read by
    [if ((n % 2) == 0) { Get(n, p1); Get(n + 1, p2); }
     else { Get(n, p2); Get(n - 1, p1); }]: the pair [(p1, p2)]. *)
Definition pair_positions (s : ShapeNode) (n : Z) : Vec3 * Vec3 :=
  if (Z.rem n 2 =? 0)%Z
  then (GetNthControlPointPositionWorld s n zero3,
        GetNthControlPointPositionWorld s (n + 1)%Z zero3)
  else (GetNthControlPointPositionWorld s (n - 1)%Z zero3,
        GetNthControlPointPositionWorld s n zero3).

(** [GetRadiusAtNthControlPoint(n)]; -1.0 is the value returned next to
    each error report. *)
Definition GetRadiusAtNthControlPoint (s : ShapeNode) (n : Z) : double :=
  if negb (ShapeName s =? Tube)%Z then Fin (-1)
  else if (n <? 0)%Z
          || (GetNumberOfUndefinedControlPoints s >? 0)%Z
          || (GetNumberOfDefinedControlPoints false s <? 4)%Z
          || negb (Z.rem (GetNumberOfDefinedControlPoints false s) 2 =? 0)%Z
          || (n >=? GetNumberOfDefinedControlPoints false s)%Z
  then Fin (-1)
  else
    let '(p1, p2) := pair_positions s n in
    (dsqrt (vtkMath.Distance2BetweenPoints p1 p2) / Fin 2)%D.

Definition SetRadiusAtNthControlPoint (n : Z) (radius : double) (s : ShapeNode) : ShapeNode :=
  if (radius <=? Fin 0)%D then s
  else
    let currentRadius := GetRadiusAtNthControlPoint s n in
    if (currentRadius <=? Fin 0)%D then s
    else
      let '(p1, p2) := pair_positions s n in
      let middlePoint := mkVec3 ((at0 p1 + at0 p2) / Fin 2)%D
                                ((at1 p1 + at1 p2) / Fin 2)%D
                                ((at2 p1 + at2 p2) / Fin 2)%D in
      let radiusDifference := (radius - currentRadius)%D in
      let p1New := FindLinearCoordinateByDistance middlePoint p1 radiusDifference in
      let p2New := FindLinearCoordinateByDistance middlePoint p2 radiusDifference in
      if (Z.rem n 2 =? 0)%Z
      then SetNthControlPointPositionWorld (n + 1)%Z p2New
             (SetNthControlPointPositionWorld n p1New s)
      else SetNthControlPointPositionWorld (n - 1)%Z p1New
             (SetNthControlPointPositionWorld n p2New s).

(* ================================================================== *)
(** ** Vocabulary of the statements *)

(** A position whose three coordinates are real numbers. *)
Definition real3 (x y z : R) : Vec3 := mkVec3 (Fin x) (Fin y) (Fin z).

(** A defined control point at a real position. *)
Definition placed (x y z : R) : ControlPoint := mkControlPoint (real3 x y z) true.

(** Every stored coordinate is a real number. *)
Definition real_store (s : ShapeNode) : Prop :=
  Forall (fun cp => exists x y z, Position cp = real3 x y z) (ControlPoints s).

(** [std::sqrt(vtkMath::Distance2BetweenPoints(p, q))] *)
Definition distance (p q : Vec3) : double :=
  dsqrt (vtkMath.Distance2BetweenPoints p q).

(** The vector from [q] to [p], component by component. *)
Definition vsub (p q : Vec3) : Vec3 :=
  mkVec3 (at0 p - at0 q)%D (at1 p - at1 q)%D (at2 p - at2 q)%D.

(** The position read at index [n] into a zeroed buffer. *)
Definition position_at (s : ShapeNode) (n : Z) : Vec3 :=
  GetNthControlPointPositionWorld s n zero3.

(** The precondition of [GetRadiusAtNthControlPoint] on a tube. *)
Definition radius_precondition (s : ShapeNode) (n : Z) : Prop :=
  (0 <= n
   /\ GetNumberOfUndefinedControlPoints s = 0
   /\ 4 <= GetNumberOfDefinedControlPoints false s
   /\ Z.even (GetNumberOfDefinedControlPoints false s) = true
   /\ n < GetNumberOfDefinedControlPoints false s)%Z.

(** The first index of the pair of [n]: [n] itself when even, [n - 1]
    when odd. *)
Definition pair_first (n : Z) : Z := if Z.even n then n else (n - 1)%Z.

(** A node of the given kind and radius mode over the given points, with
    no measurement, no pending pair removal and no slice node. *)
Definition node_with (kind mode : Z) (points : list ControlPoint) : ShapeNode :=
  mkShapeNode kind mode 0 0 [] false points None.

(** The squared distance and the distance on real coordinates. *)
Definition dist2R (x0 y0 z0 x1 y1 z1 : R) : R :=
  ((x0 - x1) * (x0 - x1) + (y0 - y1) * (y0 - y1) + (z0 - z1) * (z0 - z1))%R.

Definition distR (x0 y0 z0 x1 y1 z1 : R) : R := sqrt (dist2R x0 y0 z0 x1 y1 z1).

(* ================================================================== *)
(** ** Sample nodes *)

(** A sphere from (0,0,0) to (10,0,0). *)
Definition sphere_0_10 (mode : Z) : ShapeNode :=
  node_with Sphere mode [placed 0 0 0; placed 10 0 0].

(** A tube of six defined points along the x axis, and the same tube
    once the host has removed the point of index 2. *)
Definition tube_six : ShapeNode :=
  node_with Tube Centered
    [placed 0 0 0; placed 1 0 0; placed 2 0 0; placed 3 0 0; placed 4 0 0; placed 5 0 0].

Definition tube_five : ShapeNode := RemoveNthControlPoint 2 tube_six.

(** A tube of four defined points whose first pair is one point taken
    twice. *)
Definition tube_coincident : ShapeNode :=
  node_with Tube Centered [placed 1 2 3; placed 1 2 3; placed 0 0 0; placed 0 4 0].

(** A sphere from (1,0,0) to (1,1,0) that drives a slice node. *)
Definition sphere_sliced : ShapeNode :=
  set_ResliceNode (Some (SliceNode None))
    (node_with Sphere Centered [placed 1 0 0; placed 1 1 0]).

(** A tube of four defined points: the pair (0,0,0), (0,4,0) and the
    pair (5,0,0), (5,0,6). *)
Definition tube_four : ShapeNode :=
  node_with Tube Centered [placed 0 0 0; placed 0 4 0; placed 5 0 0; placed 5 0 6].

(** The disk of the specification's example: centre (0,0,0), then
    (3,0,0) and (0,7,0). *)
Definition disk_3_7 : ShapeNode :=
  node_with Disk Centered [placed 0 0 0; placed 3 0 0; placed 0 7 0].

(** A disk whose second point lies on the centre. *)
Definition disk_degenerate : ShapeNode :=
  node_with Disk Centered [placed 0 0 0; placed 0 0 0; placed 0 7 0].

(** The position whose three coordinates are NaN. *)
Definition NaN3 : Vec3 := mkVec3 NaN NaN NaN.

(** A sphere whose two control points are the same point (1,1,1). *)
Definition sphere_coincident (mode : Z) : ShapeNode :=
  node_with Sphere mode [placed 1 1 1; placed 1 1 1].

(** A tube of four defined points whose second point has the NaN
    coordinates that [FindLinearCoordinateByDistance] computes on a line
    of length zero. *)
Definition tube_nan : ShapeNode :=
  node_with Tube Centered
    [placed 1 2 3; mkControlPoint NaN3 true; placed 0 0 0; placed 0 4 0].

(** Two disks of centre (0,0,0) over the same two other points, (0,7,0)
    and a point of NaN coordinates, stored in either order. *)
Definition disk_nan : ShapeNode :=
  node_with Disk Centered [placed 0 0 0; mkControlPoint NaN3 true; placed 0 7 0].

Definition disk_nan_swapped : ShapeNode :=
  node_with Disk Centered [placed 0 0 0; placed 0 7 0; mkControlPoint NaN3 true].

(* ================================================================== *)
(** ** Doubles: finite operands *)

Section DoubleFacts.
Local Open Scope R_scope.

Lemma ddiv_Fin (a b : R) : b <> 0 -> ddiv (Fin a) (Fin b) = Fin (a / b).
Proof.
  intros Hb. unfold ddiv. destruct (Req_dec_T b 0); [contradiction | reflexivity].
Qed.

Lemma ddiv_Fin_2 (a : R) : ddiv (Fin a) (Fin 2) = Fin (a / 2).
Proof. apply ddiv_Fin. lra. Qed.

Lemma dsqrt_Fin (a : R) : 0 <= a -> dsqrt (Fin a) = Fin (sqrt a).
Proof.
  intros Ha. unfold dsqrt. destruct (Rlt_dec a 0); [lra | reflexivity].
Qed.

Lemma dle_Fin_true (a b : R) : a <= b -> dle (Fin a) (Fin b) = true.
Proof. intros H. unfold dle. destruct (Rle_dec a b); [reflexivity | contradiction]. Qed.

Lemma dle_Fin_false (a b : R) : b < a -> dle (Fin a) (Fin b) = false.
Proof. intros H. unfold dle. destruct (Rle_dec a b); [lra | reflexivity]. Qed.

Lemma dlt_Fin_true (a b : R) : a < b -> dlt (Fin a) (Fin b) = true.
Proof. intros H. unfold dlt. destruct (Rlt_dec a b); [reflexivity | contradiction]. Qed.

Lemma dlt_Fin_false (a b : R) : b <= a -> dlt (Fin a) (Fin b) = false.
Proof. intros H. unfold dlt. destruct (Rlt_dec a b); [lra | reflexivity]. Qed.

(** A square root is a NaN, plus infinity or a real that is not
    negative; half of it is never -1. *)
Lemma dsqrt_cases (x : double) :
  dsqrt x = NaN \/ dsqrt x = Inf false \/ exists r, 0 <= r /\ dsqrt x = Fin r.
Proof.
  destruct x as [a | [|] | ]; unfold dsqrt; auto.
  destruct (Rlt_dec a 0); auto.
  right; right. exists (sqrt a). split; [apply sqrt_pos | reflexivity].
Qed.

Lemma half_dsqrt_not_sentinel (x : double) : ddiv (dsqrt x) (Fin 2) <> Fin (-1).
Proof.
  destruct (dsqrt_cases x) as [E | [E | (r & Hr & E)]]; rewrite E.
  - discriminate.
  - discriminate.
  - rewrite ddiv_Fin_2. intros H. injection H as H. lra.
Qed.

(** [==] implies [<=]; [<=] both ways leaves one value; no comparison
    holds on a NaN. *)
Lemma deq_dle (x y : double) : deq x y = true -> dle x y = true.
Proof.
  destruct x as [a | [|] | ], y as [b | [|] | ]; unfold deq, dle; simpl;
    intros H; try discriminate; try reflexivity.
  destruct (Req_dec_T a b) as [E | E]; [| discriminate].
  destruct (Rle_dec a b); [reflexivity | lra].
Qed.

Lemma dle_antisym (x y : double) : dle x y = true -> dle y x = true -> x = y.
Proof.
  destruct x as [a | [|] | ], y as [b | [|] | ]; unfold dle; simpl;
    intros H1 H2; try discriminate; try reflexivity.
  destruct (Rle_dec a b), (Rle_dec b a); try discriminate.
  f_equal. lra.
Qed.

Lemma dle_NaN_l (y : double) : dle NaN y = false.
Proof. reflexivity. Qed.

Lemma dle_NaN_r (x : double) : dle x NaN = false.
Proof. destruct x; reflexivity. Qed.

Lemma dist2R_nonneg (x0 y0 z0 x1 y1 z1 : R) : 0 <= dist2R x0 y0 z0 x1 y1 z1.
Proof.
  unfold dist2R.
  pose proof (Rle_0_sqr (x0 - x1)) as H0.
  pose proof (Rle_0_sqr (y0 - y1)) as H1.
  pose proof (Rle_0_sqr (z0 - z1)) as H2.
  unfold Rsqr in H0, H1, H2. lra.
Qed.

Lemma dist2R_zero_iff (x0 y0 z0 x1 y1 z1 : R) :
  dist2R x0 y0 z0 x1 y1 z1 = 0 <-> (x0 = x1 /\ y0 = y1 /\ z0 = z1).
Proof.
  unfold dist2R. split.
  - intros H.
    pose proof (Rle_0_sqr (x0 - x1)) as H0.
    pose proof (Rle_0_sqr (y0 - y1)) as H1.
    pose proof (Rle_0_sqr (z0 - z1)) as H2.
    unfold Rsqr in H0, H1, H2.
    assert (E0 : (x0 - x1) * (x0 - x1) = 0) by lra.
    assert (E1 : (y0 - y1) * (y0 - y1) = 0) by lra.
    assert (E2 : (z0 - z1) * (z0 - z1) = 0) by lra.
    apply Rsqr_0_uniq in E0, E1, E2. lra.
  - intros (-> & -> & ->). ring.
Qed.

Lemma distR_nonneg (x0 y0 z0 x1 y1 z1 : R) : 0 <= distR x0 y0 z0 x1 y1 z1.
Proof. apply sqrt_pos. Qed.

Lemma distR_zero_iff (x0 y0 z0 x1 y1 z1 : R) :
  distR x0 y0 z0 x1 y1 z1 = 0 <-> (x0 = x1 /\ y0 = y1 /\ z0 = z1).
Proof.
  rewrite <- dist2R_zero_iff. unfold distR. split.
  - apply sqrt_eq_0, dist2R_nonneg.
  - intros ->. apply sqrt_0.
Qed.

Lemma Distance2_real3 (x0 y0 z0 x1 y1 z1 : R) :
  vtkMath.Distance2BetweenPoints (real3 x0 y0 z0) (real3 x1 y1 z1)
  = Fin (dist2R x0 y0 z0 x1 y1 z1).
Proof. reflexivity. Qed.

Lemma distance_real3 (x0 y0 z0 x1 y1 z1 : R) :
  distance (real3 x0 y0 z0) (real3 x1 y1 z1) = Fin (distR x0 y0 z0 x1 y1 z1).
Proof.
  unfold distance. rewrite Distance2_real3.
  rewrite dsqrt_Fin; [reflexivity | apply dist2R_nonneg].
Qed.

(** The distance to a position of NaN coordinates is a NaN. *)
Lemma distance_NaN3_r (p : Vec3) : distance p NaN3 = NaN.
Proof. destruct p as [[a | s | ] [b | t | ] [c | u | ]]; reflexivity. Qed.

Lemma distance_NaN3_l (p : Vec3) : distance NaN3 p = NaN.
Proof. reflexivity. Qed.

End DoubleFacts.

(* ================================================================== *)
(** ** The store *)

Section StoreFacts.

Lemma valid_index_Some {A : Type} (l : list A) (n : Z) (i : nat) :
  valid_index l n = Some i <-> (n = Z.of_nat i /\ (i < length l)%nat).
Proof.
  unfold valid_index.
  destruct (0 <=? n)%Z eqn:E0; destruct (n <? Z.of_nat (length l))%Z eqn:E1; simpl;
    split; try discriminate; intros H;
    try (injection H as <-; split; lia); destruct H as [-> H]; try lia.
  f_equal. lia.
Qed.

Lemma valid_index_of_nat {A : Type} (l : list A) (i : nat) :
  (i < length l)%nat -> valid_index l (Z.of_nat i) = Some i.
Proof. intros H. apply valid_index_Some. split; [reflexivity | assumption]. Qed.

Lemma valid_index_None {A : Type} (l : list A) (n : Z) :
  valid_index l n = None <-> (n < 0 \/ Z.of_nat (length l) <= n)%Z.
Proof.
  unfold valid_index.
  destruct (0 <=? n)%Z eqn:E0; destruct (n <? Z.of_nat (length l))%Z eqn:E1; simpl;
    split; try discriminate; try reflexivity; intros H; lia.
Qed.

Lemma replace_nth_length {A : Type} (l : list A) (i : nat) (f : A -> A) :
  length (replace_nth l i f) = length l.
Proof.
  revert i. induction l as [| a l IH]; intros [| i]; simpl; try reflexivity.
  now rewrite IH.
Qed.

Lemma remove_nth_length {A : Type} (l : list A) (i : nat) :
  (i < length l)%nat -> length (remove_nth l i) = pred (length l).
Proof.
  revert i. induction l as [| a l IH]; intros [| i] H; simpl in *; try lia.
  rewrite IH by lia. lia.
Qed.

Lemma firstn_remove_nth {A : Type} (l : list A) (m : nat) :
  firstn m (remove_nth l m) = firstn m l.
Proof.
  revert m. induction l as [| a l IH]; intros [| m]; simpl; try reflexivity.
  now rewrite IH.
Qed.

Lemma nth_error_replace_nth_same {A : Type} (l : list A) (i : nat) (f : A -> A) (a : A) :
  nth_error l i = Some a -> nth_error (replace_nth l i f) i = Some (f a).
Proof.
  revert i. induction l as [| b l IH]; intros [| i] H; simpl in *; try discriminate.
  - now injection H as ->.
  - now apply IH.
Qed.

Lemma nth_error_replace_nth_other {A : Type} (l : list A) (i j : nat) (f : A -> A) :
  i <> j -> nth_error (replace_nth l i f) j = nth_error l j.
Proof.
  revert i j. induction l as [| b l IH]; intros [| i] [| j] H; simpl;
    try reflexivity; try congruence.
  apply IH. congruence.
Qed.

Lemma replace_nth_comm {A : Type} (l : list A) (i j : nat) (f g : A -> A) :
  i <> j ->
  replace_nth (replace_nth l i f) j g = replace_nth (replace_nth l j g) i f.
Proof.
  revert i j. induction l as [| a l IH]; intros [| i] [| j] H; simpl;
    try reflexivity; try congruence.
  f_equal. apply IH. congruence.
Qed.

(** The loop of [SetShapeName] keeps the first [Maximum] points, given
    fuel for every point beyond them. *)
Lemma truncate_loop_firstn (fuel : nat) (s : ShapeNode) :
  (0 <= MaximumNumberOfControlPoints s)%Z ->
  (length (ControlPoints s) <= Z.to_nat (MaximumNumberOfControlPoints s) + fuel)%nat ->
  truncate_loop fuel s
  = set_ControlPoints
      (firstn (Z.to_nat (MaximumNumberOfControlPoints s)) (ControlPoints s)) s.
Proof.
  revert s. induction fuel as [| fuel IH]; intros s Hmax Hlen; simpl.
  - rewrite firstn_all2 by lia. now destruct s.
  - unfold GetNumberOfControlPoints.
    destruct (Z.of_nat (length (ControlPoints s)) >? MaximumNumberOfControlPoints s)%Z eqn:E.
    + assert (Hlt : (Z.to_nat (MaximumNumberOfControlPoints s) < length (ControlPoints s))%nat) by lia.
      unfold RemoveNthControlPoint.
      replace (valid_index (ControlPoints s) (MaximumNumberOfControlPoints s))
        with (Some (Z.to_nat (MaximumNumberOfControlPoints s)))
        by (symmetry; apply valid_index_Some; split; lia).
      rewrite IH; simpl.
      * now rewrite firstn_remove_nth.
      * assumption.
      * rewrite remove_nth_length by assumption. lia.
    + rewrite firstn_all2 by lia. now destruct s.
Qed.

End StoreFacts.

(* ================================================================== *)
(** ** [SetShapeName] *)

Section ShapeKind.

(** The bounded kinds keep the first points, up to their maximum. *)
Lemma after_switch_bounded (s : ShapeNode) :
  (0 < MaximumNumberOfControlPoints s)%Z ->
  after_switch s
  = set_ControlPoints
      (firstn (Z.to_nat (MaximumNumberOfControlPoints s)) (ControlPoints s)) s.
Proof.
  intros H. unfold after_switch.
  replace (MaximumNumberOfControlPoints s >? 0)%Z with true by lia.
  apply truncate_loop_firstn; lia.
Qed.

Lemma SetShapeName_Sphere (s : ShapeNode) :
  ControlPoints (SetShapeName Sphere s) = firstn 2 (ControlPoints s)
  /\ MaximumNumberOfControlPoints (SetShapeName Sphere s) = 2%Z.
Proof.
  unfold SetShapeName. simpl. rewrite after_switch_bounded by (simpl; lia).
  split; reflexivity.
Qed.

Lemma SetShapeName_Ring (s : ShapeNode) :
  ControlPoints (SetShapeName Ring s) = firstn 3 (ControlPoints s)
  /\ MaximumNumberOfControlPoints (SetShapeName Ring s) = 3%Z.
Proof.
  unfold SetShapeName. simpl. rewrite after_switch_bounded by (simpl; lia).
  split; reflexivity.
Qed.

Lemma SetShapeName_Disk (s : ShapeNode) :
  ControlPoints (SetShapeName Disk s) = firstn 3 (ControlPoints s)
  /\ MaximumNumberOfControlPoints (SetShapeName Disk s) = 3%Z.
Proof.
  unfold SetShapeName. simpl. rewrite after_switch_bounded by (simpl; lia).
  split; reflexivity.
Qed.

(** C1 (as the code behaves): [SetShapeName(Tube)] sets the required and
    the maximum count to -1 and installs the Tube measurement set, but it
    then falls into the [default] label and returns: the control points
    are not removed, the store is the one of the starting state. *)
Theorem SetShapeName_Tube_keeps_points (s : ShapeNode) :
  let s' := SetShapeName Tube s in
  ShapeName s' = Tube
  /\ RequiredNumberOfControlPoints s' = (-1)%Z
  /\ MaximumNumberOfControlPoints s' = (-1)%Z
  /\ Measurements s' = [areaMeasurement "area"; volumeMeasurement true]
  /\ ControlPoints s' = ControlPoints s.
Proof. repeat split. Qed.

(** At a sphere with two points the store still holds both points after
    [SetShapeName(Tube)]. *)
Example SetShapeName_Tube_on_sphere :
  ControlPoints (SetShapeName Tube (sphere_0_10 Centered))
  = [placed 0 0 0; placed 10 0 0].
Proof. reflexivity. Qed.

(** C2, at one input: a sphere handed the unknown kind 7 stores 7 as its
    shape kind. *)
Lemma SetShapeName_unknown_changes_kind :
  ShapeName (sphere_0_10 Centered) = Sphere
  /\ ShapeName (SetShapeName 7 (sphere_0_10 Centered)) = 7%Z.
Proof. split; reflexivity. Qed.

(** C2 (as the code behaves): [this->ShapeName = shapeName] runs before
    the [switch], and the [default] label returns without restoring it.
    For a kind outside Sphere, Ring, Disk and Tube the node is therefore
    not left as it was: the stored kind becomes the rejected one, while
    the required and maximum counts, the measurement set and the control
    point store keep their values. *)
Theorem SetShapeName_unknown (s : ShapeNode) (kind : Z) :
  kind <> Sphere -> kind <> Ring -> kind <> Disk -> kind <> Tube ->
  let s' := SetShapeName kind s in
  ShapeName s' = kind
  /\ RequiredNumberOfControlPoints s' = RequiredNumberOfControlPoints s
  /\ MaximumNumberOfControlPoints s' = MaximumNumberOfControlPoints s
  /\ Measurements s' = Measurements s
  /\ ControlPoints s' = ControlPoints s
  /\ s' = set_ShapeName kind s.
Proof.
  intros HS HR HD HT. unfold SetShapeName.
  apply Z.eqb_neq in HS, HR, HD, HT. rewrite HS, HR, HD, HT.
  repeat split.
Qed.

Lemma SetShapeName_unknown_witness :
  let s' := SetShapeName 7 (sphere_0_10 Centered) in
  ShapeName s' = 7%Z
  /\ RequiredNumberOfControlPoints s' = RequiredNumberOfControlPoints (sphere_0_10 Centered)
  /\ MaximumNumberOfControlPoints s' = MaximumNumberOfControlPoints (sphere_0_10 Centered)
  /\ Measurements s' = Measurements (sphere_0_10 Centered)
  /\ ControlPoints s' = ControlPoints (sphere_0_10 Centered)
  /\ s' = set_ShapeName 7 (sphere_0_10 Centered).
Proof.
  apply (SetShapeName_unknown (sphere_0_10 Centered) 7); unfold Sphere, Ring, Disk, Tube; lia.
Defined.

End ShapeKind.

(* ================================================================== *)
(** ** Tube pairing *)

Section TubePairing.
Local Open Scope Z_scope.

Lemma rem_2_even (n : Z) : 0 <= n -> (Z.rem n 2 =? 0) = Z.even n.
Proof.
  intros H. rewrite Z.rem_mod_nonneg by lia. rewrite Zmod_even.
  destruct (Z.even n); reflexivity.
Qed.

Lemma remove_nth_out_of_range {A : Type} (l : list A) (i : nat) :
  (length l <= i)%nat -> remove_nth l i = l.
Proof.
  revert i. induction l as [| a l IH]; intros [| i] H; simpl in *;
    try reflexivity; try lia.
  f_equal. apply IH. lia.
Qed.

(** Removal by a non-negative index, in range or not, is [remove_nth]. *)
Lemma RemoveNthControlPoint_points (s : ShapeNode) (n : Z) :
  0 <= n ->
  ControlPoints (RemoveNthControlPoint n s) = remove_nth (ControlPoints s) (Z.to_nat n).
Proof.
  intros Hn. unfold RemoveNthControlPoint.
  destruct (valid_index (ControlPoints s) n) as [k |] eqn:E.
  - apply valid_index_Some in E as [-> _]. simpl. now rewrite Nat2Z.id.
  - apply valid_index_None in E. rewrite remove_nth_out_of_range by lia. reflexivity.
Qed.

Lemma RemoveNthControlPoint_flag (s : ShapeNode) (n : Z) :
  RemovingPairControlPoint (RemoveNthControlPoint n s) = RemovingPairControlPoint s.
Proof.
  unfold RemoveNthControlPoint. destruct (valid_index _ n); reflexivity.
Qed.

(** The guard: a pending pair removal, or an empty store. *)
Lemma OnPointPositionUndefined_guard (s : ShapeNode) (i : Z) :
  ShapeName s = Tube -> GetNumberOfUndefinedControlPoints s = 0 ->
  RemovingPairControlPoint s = true \/ ControlPoints s = [] ->
  OnPointPositionUndefined i s = set_RemovingPairControlPoint false s.
Proof.
  intros Hk Hu Hg. unfold OnPointPositionUndefined.
  rewrite Hk, Hu. simpl.
  destruct Hg as [-> | Hg]; [reflexivity |].
  unfold GetNumberOfControlPoints. rewrite Hg. simpl.
  now rewrite orb_true_r.
Qed.

(** Past the guard the callback looks at the parity of the index. *)
Lemma OnPointPositionUndefined_step (s : ShapeNode) (i : Z) :
  ShapeName s = Tube -> GetNumberOfUndefinedControlPoints s = 0 ->
  RemovingPairControlPoint s = false -> ControlPoints s <> [] -> 0 <= i ->
  OnPointPositionUndefined i s
  = if Z.even i
    then if i <? Z.of_nat (length (ControlPoints s))
         then RemoveNthControlPoint i (set_RemovingPairControlPoint true s)
         else set_RemovingPairControlPoint false s
    else RemoveNthControlPoint (i - 1) (set_RemovingPairControlPoint true s).
Proof.
  intros Hk Hu Hf Hne Hi. unfold OnPointPositionUndefined.
  rewrite Hk, Hu, Hf. simpl.
  unfold GetNumberOfControlPoints.
  destruct (ControlPoints s) as [| c l] eqn:E; [congruence |].
  replace (Z.of_nat (length (c :: l)) =? 0) with false
    by (symmetry; apply Z.eqb_neq; simpl length; lia).
  rewrite rem_2_even by assumption.
  replace (Z.of_nat (length (c :: l)) >? i) with (i <? Z.of_nat (length (c :: l)))
    by (rewrite Z.gtb_ltb; reflexivity).
  reflexivity.
Qed.

(** C4: the callback on a tube with no undefined point, for the index
    [i >= 0] of the point that became undefined.  With the removal flag
    set or an empty store, the flag is cleared and no point is removed.
    Otherwise: for an even [i] below the number of points, the flag is
    set and the point now at [i] is removed; for an even [i] with no
    point at [i], the flag is cleared and no point is removed; for an
    odd [i], the flag is set and the point at [i - 1] is removed.  In
    particular, six defined points of which the host removes index 2
    (resp. 5) are four points after the callback: the pair 2,3 (resp.
    4,5) is gone. *)
Theorem OnPointPositionUndefined_pairs (s : ShapeNode) (i : Z) :
  ShapeName s = Tube -> GetNumberOfUndefinedControlPoints s = 0 -> 0 <= i ->
  let s' := OnPointPositionUndefined i s in
  let count := Z.of_nat (length (ControlPoints s)) in
  (RemovingPairControlPoint s = true \/ ControlPoints s = [] ->
     RemovingPairControlPoint s' = false /\ ControlPoints s' = ControlPoints s)
  /\ (RemovingPairControlPoint s = false -> ControlPoints s <> [] ->
      (Z.even i = true -> i < count ->
         RemovingPairControlPoint s' = true
         /\ ControlPoints s' = remove_nth (ControlPoints s) (Z.to_nat i)
         /\ Z.of_nat (length (ControlPoints s')) = count - 1)
      /\ (Z.even i = true -> count <= i ->
         RemovingPairControlPoint s' = false /\ ControlPoints s' = ControlPoints s)
      /\ (Z.odd i = true ->
         RemovingPairControlPoint s' = true
         /\ ControlPoints s' = remove_nth (ControlPoints s) (Z.to_nat (i - 1))
         /\ (i <= count -> Z.of_nat (length (ControlPoints s')) = count - 1)))
  /\ (forall t c0 c1 c2 c3 c4 c5,
        ShapeName t = Tube -> RemovingPairControlPoint t = false ->
        ControlPoints t = [c0; c1; c2; c3; c4; c5] ->
        forallb Defined (ControlPoints t) = true ->
        ControlPoints (OnPointPositionUndefined 2 (RemoveNthControlPoint 2 t))
        = [c0; c1; c4; c5]
        /\ ControlPoints (OnPointPositionUndefined 5 (RemoveNthControlPoint 5 t))
          = [c0; c1; c2; c3]).
Proof.
  intros Hk Hu Hi s' count. split; [| split].
  - intros Hg. subst s'. rewrite OnPointPositionUndefined_guard by assumption.
    split; reflexivity.
  - intros Hf Hne. subst s'. rewrite OnPointPositionUndefined_step by assumption.
    split; [| split].
    + intros He Hlt. rewrite He. fold count.
      replace (i <? count) with true by lia.
      rewrite RemoveNthControlPoint_flag, RemoveNthControlPoint_points by assumption.
      simpl. repeat split.
      rewrite remove_nth_length by lia. subst count. lia.
    + intros He Hge. rewrite He. fold count.
      replace (i <? count) with false by lia. split; reflexivity.
    + intros Ho. rewrite <- Z.negb_odd, Ho. simpl negb. cbv iota.
      assert (1 <= i) by (destruct (Z.eq_dec i 0) as [-> |]; [discriminate | lia]).
      rewrite RemoveNthControlPoint_flag, RemoveNthControlPoint_points by lia.
      simpl. repeat split.
      intros Hle. rewrite remove_nth_length by lia. subst count. lia.
  - intros t c0 c1 c2 c3 c4 c5 Ht Hf Hc Hd.
    rewrite Hc in Hd. simpl in Hd.
    repeat (apply andb_prop in Hd; destruct Hd as [? Hd]).
    destruct t as [k m rq mx ms fl cps rn]. simpl in *. subst k fl cps.
    unfold OnPointPositionUndefined, RemoveNthControlPoint,
      GetNumberOfUndefinedControlPoints, GetNumberOfControlPoints. simpl.
    repeat match goal with H : Defined _ = true |- _ => rewrite H; clear H end.
    simpl. split; reflexivity.
Qed.

Lemma OnPointPositionUndefined_pairs_witness :
  RemovingPairControlPoint (OnPointPositionUndefined 2 tube_five) = true
  /\ length (ControlPoints (OnPointPositionUndefined 2 tube_five)) = 4%nat.
Proof.
  assert (Hk : ShapeName tube_five = Tube) by reflexivity.
  assert (Hu : GetNumberOfUndefinedControlPoints tube_five = 0) by reflexivity.
  assert (Hi : 0 <= 2) by lia.
  destruct (OnPointPositionUndefined_pairs tube_five 2 Hk Hu Hi) as (_ & H & _).
  destruct H as (H & _); [reflexivity | discriminate |].
  destruct H as (Hf & Hc & _); [reflexivity | simpl; lia |].
  split; [exact Hf | rewrite Hc; reflexivity].
Defined.

(** The notification raised by the callback's own removal finds the flag
    set: it clears the flag and removes nothing more. *)
Example OnPointPositionUndefined_nested :
  let s' := OnPointPositionUndefined 2 (OnPointPositionUndefined 2 tube_five) in
  RemovingPairControlPoint s' = false
  /\ ControlPoints s' = [placed 0 0 0; placed 1 0 0; placed 4 0 0; placed 5 0 0].
Proof. split; reflexivity. Qed.

End TubePairing.

(* ================================================================== *)
(** ** The radius at a tube control point *)

Section TubeRadius.
Local Open Scope Z_scope.

Lemma GetNth_nth_error (s : ShapeNode) (i : nat) (cp : ControlPoint) (buffer : Vec3) :
  nth_error (ControlPoints s) i = Some cp ->
  GetNthControlPointPositionWorld s (Z.of_nat i) buffer = Position cp.
Proof.
  intros H. unfold GetNthControlPointPositionWorld.
  rewrite valid_index_of_nat by (apply nth_error_Some; congruence).
  now rewrite H.
Qed.

Lemma GetNth_real (s : ShapeNode) (n : Z) :
  real_store s -> exists x y z, GetNthControlPointPositionWorld s n zero3 = real3 x y z.
Proof.
  intros Hs. unfold GetNthControlPointPositionWorld.
  destruct (valid_index (ControlPoints s) n) as [i |]; [| now exists 0%R, 0%R, 0%R].
  destruct (nth_error (ControlPoints s) i) as [cp |] eqn:E; [| now exists 0%R, 0%R, 0%R].
  apply nth_error_In in E. unfold real_store in Hs. rewrite Forall_forall in Hs.
  now apply Hs.
Qed.

(** Defined and undefined points make up the store. *)
Lemma defined_plus_undefined (s : ShapeNode) (includePreview : bool) :
  GetNumberOfDefinedControlPoints includePreview s + GetNumberOfUndefinedControlPoints s
  = GetNumberOfControlPoints s.
Proof.
  unfold GetNumberOfDefinedControlPoints, GetNumberOfUndefinedControlPoints,
    GetNumberOfControlPoints.
  induction (ControlPoints s) as [| cp l IH]; [reflexivity |].
  simpl. destruct (Defined cp); simpl length; lia.
Qed.

Lemma defined_nonneg (s : ShapeNode) (includePreview : bool) :
  0 <= GetNumberOfDefinedControlPoints includePreview s.
Proof. unfold GetNumberOfDefinedControlPoints. lia. Qed.

Lemma undefined_nonneg (s : ShapeNode) : 0 <= GetNumberOfUndefinedControlPoints s.
Proof. unfold GetNumberOfUndefinedControlPoints. lia. Qed.

Lemma GetRadius_not_tube (s : ShapeNode) (n : Z) :
  ShapeName s <> Tube -> GetRadiusAtNthControlPoint s n = Fin (-1).
Proof.
  intros H. unfold GetRadiusAtNthControlPoint.
  apply Z.eqb_neq in H. now rewrite H.
Qed.

Lemma GetRadius_guard (s : ShapeNode) (n : Z) :
  ShapeName s = Tube ->
  ((n <? 0)
   || (GetNumberOfUndefinedControlPoints s >? 0)
   || (GetNumberOfDefinedControlPoints false s <? 4)
   || negb (Z.rem (GetNumberOfDefinedControlPoints false s) 2 =? 0)
   || (n >=? GetNumberOfDefinedControlPoints false s)) = false
  <-> radius_precondition s n.
Proof.
  intros _. unfold radius_precondition.
  pose proof (undefined_nonneg s) as Hu.
  pose proof (defined_nonneg s false) as Hd.
  rewrite rem_2_even by assumption.
  rewrite !orb_false_iff, negb_false_iff.
  rewrite Z.ltb_ge, Z.ltb_ge, Z.geb_leb, Z.leb_gt, Z.gtb_ltb, Z.ltb_ge.
  intuition lia.
Qed.

Lemma GetRadius_ok (s : ShapeNode) (n : Z) :
  ShapeName s = Tube -> radius_precondition s n ->
  GetRadiusAtNthControlPoint s n
  = (distance (fst (pair_positions s n)) (snd (pair_positions s n)) / Fin 2)%D.
Proof.
  intros Hk Hp. unfold GetRadiusAtNthControlPoint.
  rewrite Hk. simpl negb. cbv iota.
  apply (GetRadius_guard s n Hk) in Hp. rewrite Hp.
  destruct (pair_positions s n); reflexivity.
Qed.

Lemma GetRadius_fail (s : ShapeNode) (n : Z) :
  ShapeName s = Tube -> ~ radius_precondition s n ->
  GetRadiusAtNthControlPoint s n = Fin (-1).
Proof.
  intros Hk Hp. unfold GetRadiusAtNthControlPoint.
  rewrite Hk. simpl negb. cbv iota.
  match goal with |- (if ?b then _ else _) = _ => destruct b eqn:E end;
    [reflexivity |].
  apply (GetRadius_guard s n Hk) in E. contradiction.
Qed.

(** Under the precondition both indices of the pair are in the store. *)
Lemma pair_in_store (s : ShapeNode) (n : Z) :
  radius_precondition s n ->
  let first := if Z.even n then n else n - 1 in
  exists cp1 cp2,
    nth_error (ControlPoints s) (Z.to_nat first) = Some cp1
    /\ nth_error (ControlPoints s) (Z.to_nat (first + 1)) = Some cp2
    /\ pair_positions s n = (Position cp1, Position cp2).
Proof.
  intros (Hn & Hu & H4 & He & Hlt) first.
  pose proof (defined_plus_undefined s false) as Hsum.
  unfold GetNumberOfControlPoints in Hsum.
  set (d := GetNumberOfDefinedControlPoints false s) in *.
  assert (Hfirst : 0 <= first /\ first + 1 < d).
  { subst first. destruct (Z.even n) eqn:En.
    - split; [lia |].
      destruct (Z.eq_dec (n + 1) d) as [E |]; [| lia].
      rewrite <- E, Z.even_add, En in He. discriminate.
    - split; [| lia].
      destruct (Z.eq_dec n 0) as [-> |]; [discriminate | lia]. }
  destruct Hfirst as [Hf0 Hf1].
  destruct (nth_error (ControlPoints s) (Z.to_nat first)) as [cp1 |] eqn:E1;
    [| apply nth_error_None in E1; lia].
  destruct (nth_error (ControlPoints s) (Z.to_nat (first + 1))) as [cp2 |] eqn:E2;
    [| apply nth_error_None in E2; lia].
  exists cp1, cp2. repeat split.
  unfold pair_positions. rewrite rem_2_even by assumption.
  apply (GetNth_nth_error s _ _ zero3) in E1, E2.
  rewrite !Z2Nat.id in E1, E2 by lia.
  subst first. destruct (Z.even n).
  - now rewrite E1, E2.
  - replace (n - 1 + 1) with n in E2 by lia. now rewrite E1, E2.
Qed.

(** What makes [GetRadiusAtNthControlPoint] fail on a tube. *)
Lemma radius_precondition_dec (s : ShapeNode) (n : Z) :
  radius_precondition s n
  \/ (n < 0
      \/ 0 < GetNumberOfUndefinedControlPoints s
      \/ GetNumberOfDefinedControlPoints false s < 4
      \/ Z.odd (GetNumberOfDefinedControlPoints false s) = true
      \/ GetNumberOfDefinedControlPoints false s <= n).
Proof.
  unfold radius_precondition.
  pose proof (undefined_nonneg s).
  rewrite <- Z.negb_odd.
  destruct (Z.odd (GetNumberOfDefinedControlPoints false s)); simpl; [auto 6 |].
  destruct (Z_lt_dec n 0); [auto |].
  destruct (Z.eq_dec (GetNumberOfUndefinedControlPoints s) 0); [| right; right; left; lia].
  destruct (Z_lt_dec (GetNumberOfDefinedControlPoints false s) 4); [auto 6 |].
  destruct (Z_le_dec (GetNumberOfDefinedControlPoints false s) n); [auto 8 |].
  left. repeat split; lia.
Qed.

Lemma radius_precondition_excl (s : ShapeNode) (n : Z) :
  radius_precondition s n ->
  ~ (n < 0
     \/ 0 < GetNumberOfUndefinedControlPoints s
     \/ GetNumberOfDefinedControlPoints false s < 4
     \/ Z.odd (GetNumberOfDefinedControlPoints false s) = true
     \/ GetNumberOfDefinedControlPoints false s <= n).
Proof.
  intros (Hn & Hu & H4 & He & Hlt). rewrite <- Z.negb_odd in He.
  intros [? | [? | [? | [Ho | ?]]]]; try lia. rewrite Ho in He. discriminate.
Qed.

Lemma GetRadius_fail_iff (s : ShapeNode) (n : Z) :
  ShapeName s = Tube ->
  GetRadiusAtNthControlPoint s n = Fin (-1)
  <-> (n < 0
       \/ 0 < GetNumberOfUndefinedControlPoints s
       \/ GetNumberOfDefinedControlPoints false s < 4
       \/ Z.odd (GetNumberOfDefinedControlPoints false s) = true
       \/ GetNumberOfDefinedControlPoints false s <= n).
Proof.
  intros Hk. split.
  - intros Hfail. destruct (radius_precondition_dec s n) as [Hp | Hbad]; [| assumption].
    rewrite (GetRadius_ok s n Hk Hp) in Hfail.
    now apply half_dsqrt_not_sentinel in Hfail.
  - intros Hbad. apply GetRadius_fail; [assumption |].
    intros Hp. now apply radius_precondition_excl in Hp.
Qed.

(** C7: on a shape that is not a tube [GetRadiusAtNthControlPoint]
    fails (returns -1).  On a tube it fails if and only if [n < 0], or
    a control point is undefined, or fewer than 4 points are defined, or
    the number of defined points is odd, or [n] is not below that
    number; and when it does not fail, the two points of the pair of
    [n] (indices [n, n+1] for an even [n], [n-1, n] for an odd [n]) are
    in the store and the result is half their distance. *)
Theorem GetRadiusAtNthControlPoint_spec (s : ShapeNode) (n : Z) :
  (ShapeName s <> Tube -> GetRadiusAtNthControlPoint s n = Fin (-1))
  /\ (ShapeName s = Tube ->
      (GetRadiusAtNthControlPoint s n = Fin (-1)
       <-> (n < 0
            \/ 0 < GetNumberOfUndefinedControlPoints s
            \/ GetNumberOfDefinedControlPoints false s < 4
            \/ Z.odd (GetNumberOfDefinedControlPoints false s) = true
            \/ GetNumberOfDefinedControlPoints false s <= n))
      /\ (GetRadiusAtNthControlPoint s n <> Fin (-1) ->
          let first := if Z.even n then n else n - 1 in
          exists cp1 cp2,
            nth_error (ControlPoints s) (Z.to_nat first) = Some cp1
            /\ nth_error (ControlPoints s) (Z.to_nat (first + 1)) = Some cp2
            /\ GetRadiusAtNthControlPoint s n
               = (distance (Position cp1) (Position cp2) / Fin 2)%D)).
Proof.
  split; [apply GetRadius_not_tube |].
  intros Hk. split; [now apply GetRadius_fail_iff |].
  intros Hok first.
  destruct (radius_precondition_dec s n) as [Hp | Hbad].
  - destruct (pair_in_store s n Hp) as (cp1 & cp2 & E1 & E2 & Epair).
    exists cp1, cp2. repeat split; try assumption.
    rewrite (GetRadius_ok s n Hk Hp), Epair. reflexivity.
  - exfalso. apply Hok. now apply GetRadius_fail_iff.
Qed.

(** On the six-point tube, index 3 belongs to the pair of indices 2
    and 3, both in the store. *)
Lemma GetRadiusAtNthControlPoint_spec_witness :
  exists cp1 cp2,
    nth_error (ControlPoints tube_six) 2 = Some cp1
    /\ nth_error (ControlPoints tube_six) 3 = Some cp2
    /\ GetRadiusAtNthControlPoint tube_six 3
       = (distance (Position cp1) (Position cp2) / Fin 2)%D.
Proof.
  destruct (GetRadiusAtNthControlPoint_spec tube_six 3) as [_ H].
  destruct (H eq_refl) as [_ Hok].
  apply Hok.
  change (GetRadiusAtNthControlPoint tube_six 3)
    with (dsqrt (vtkMath.Distance2BetweenPoints (real3 2 0 0) (real3 3 0 0)) / Fin 2)%D.
  apply half_dsqrt_not_sentinel.
Defined.

(** On the six-point tube, whose consecutive points are 1 apart, every
    pair has radius 1/2; index 6 is refused. *)
Example GetRadius_tube_six :
  GetRadiusAtNthControlPoint tube_six 2 = Fin (1 / 2)
  /\ GetRadiusAtNthControlPoint tube_six 3 = Fin (1 / 2)
  /\ GetRadiusAtNthControlPoint tube_six 6 = Fin (-1)
  /\ GetRadiusAtNthControlPoint tube_five 2 = Fin (-1).
Proof.
  assert (E : forall a b : R, (a - b = 1)%R ->
            (distance (real3 a 0 0) (real3 b 0 0) / Fin 2)%D = Fin (1 / 2)).
  { intros a b H. rewrite distance_real3, ddiv_Fin_2. f_equal. f_equal.
    unfold distR, dist2R. rewrite H.
    replace (1 * 1 + (0 - 0) * (0 - 0) + (0 - 0) * (0 - 0))%R with (1 * 1)%R by ring.
    apply sqrt_square. lra. }
  repeat split.
  - change (GetRadiusAtNthControlPoint tube_six 2)
      with (distance (real3 2 0 0) (real3 3 0 0) / Fin 2)%D.
    rewrite <- (E 3 2)%R by lra. unfold distance.
    rewrite !Distance2_real3. do 2 f_equal. f_equal. unfold dist2R. ring.
  - change (GetRadiusAtNthControlPoint tube_six 3)
      with (distance (real3 2 0 0) (real3 3 0 0) / Fin 2)%D.
    rewrite <- (E 3 2)%R by lra. unfold distance.
    rewrite !Distance2_real3. do 2 f_equal. f_equal. unfold dist2R. ring.
Qed.

Lemma GetRadius_real (s : ShapeNode) (n : Z) :
  real_store s ->
  exists r, GetRadiusAtNthControlPoint s n = Fin r /\ (r = -1 \/ 0 <= r)%R.
Proof.
  intros Hs. unfold GetRadiusAtNthControlPoint.
  destruct (negb (ShapeName s =? Tube)); [exists (-1)%R; auto |].
  match goal with |- context [if ?b then Fin (-1) else _] => destruct b end;
    [exists (-1)%R; auto |].
  assert (Hp : exists x1 y1 z1 x2 y2 z2,
             pair_positions s n = (real3 x1 y1 z1, real3 x2 y2 z2)).
  { unfold pair_positions. destruct (Z.rem n 2 =? 0).
    - destruct (GetNth_real s n Hs) as (x1 & y1 & z1 & ->).
      destruct (GetNth_real s (n + 1) Hs) as (x2 & y2 & z2 & ->). eauto 7.
    - destruct (GetNth_real s (n - 1) Hs) as (x1 & y1 & z1 & ->).
      destruct (GetNth_real s n Hs) as (x2 & y2 & z2 & ->). eauto 7. }
  destruct Hp as (x1 & y1 & z1 & x2 & y2 & z2 & ->).
  fold (distance (real3 x1 y1 z1) (real3 x2 y2 z2)).
  rewrite distance_real3, ddiv_Fin_2.
  eexists; split; [reflexivity |]. right.
  pose proof (distR_nonneg x1 y1 z1 x2 y2 z2). lra.
Qed.

Lemma SetRadiusAt_refused (s : ShapeNode) (n : Z) (radius : double) :
  (radius <=? Fin 0)%D = true \/ (GetRadiusAtNthControlPoint s n <=? Fin 0)%D = true ->
  SetRadiusAtNthControlPoint n radius s = s.
Proof.
  intros H. unfold SetRadiusAtNthControlPoint.
  destruct (radius <=? Fin 0)%D; [reflexivity |].
  destruct H as [H | H]; [discriminate | now rewrite H].
Qed.

(** C10 (as stated, refuted): on [tube_nan] the current radius of the
    first pair is a NaN.  It is not strictly positive, and it is not
    [<= 0] either, which is what the guard tests: with the radius 5
    [SetRadiusAtNthControlPoint] goes on and writes both points of the
    pair, the point (1,2,3) included. *)
Lemma SetRadiusAtNthControlPoint_NaN_radius :
  ShapeName tube_nan = Tube
  /\ GetRadiusAtNthControlPoint tube_nan 0 = NaN
  /\ (GetRadiusAtNthControlPoint tube_nan 0 >? Fin 0)%D = false
  /\ (GetRadiusAtNthControlPoint tube_nan 0 <=? Fin 0)%D = false
  /\ ControlPoints tube_nan
     = [placed 1 2 3; mkControlPoint NaN3 true; placed 0 0 0; placed 0 4 0]
  /\ ControlPoints (SetRadiusAtNthControlPoint 0 (Fin 5) tube_nan)
     = [mkControlPoint NaN3 true; mkControlPoint NaN3 true; placed 0 0 0; placed 0 4 0].
Proof.
  assert (E : GetRadiusAtNthControlPoint tube_nan 0 = NaN) by reflexivity.
  repeat split.
  unfold SetRadiusAtNthControlPoint.
  rewrite dle_Fin_false by lra. rewrite E. reflexivity.
Qed.

(** C10 (amended): [GetRadiusAtNthControlPoint] answers -1 whenever the
    shape is not a tube or one of its preconditions fails;
    [SetRadiusAtNthControlPoint] returns with the node untouched
    whenever the requested radius is [<= 0] or the current radius is
    [<= 0]; when every stored coordinate is a real number, that is
    whenever the current radius is not [> 0]; so a pair whose two
    points coincide at real coordinates, of current radius 0, is never
    resized. *)
Theorem SetRadiusAtNthControlPoint_refusals (s : ShapeNode) (n : Z) (radius : double) :
  ((ShapeName s <> Tube
    \/ n < 0
    \/ 0 < GetNumberOfUndefinedControlPoints s
    \/ GetNumberOfDefinedControlPoints false s < 4
    \/ Z.odd (GetNumberOfDefinedControlPoints false s) = true
    \/ GetNumberOfDefinedControlPoints false s <= n) ->
   GetRadiusAtNthControlPoint s n = Fin (-1))
  /\ ((radius <=? Fin 0)%D = true
      \/ (GetRadiusAtNthControlPoint s n <=? Fin 0)%D = true ->
      SetRadiusAtNthControlPoint n radius s = s)
  /\ (real_store s -> (GetRadiusAtNthControlPoint s n >? Fin 0)%D = false ->
      SetRadiusAtNthControlPoint n radius s = s)
  /\ (forall cp1 cp2 x y z,
        ShapeName s = Tube -> radius_precondition s n ->
        nth_error (ControlPoints s) (Z.to_nat (if Z.even n then n else n - 1)) = Some cp1 ->
        nth_error (ControlPoints s) (Z.to_nat ((if Z.even n then n else n - 1) + 1)) = Some cp2 ->
        Position cp1 = real3 x y z -> Position cp2 = real3 x y z ->
        GetRadiusAtNthControlPoint s n = Fin 0
        /\ SetRadiusAtNthControlPoint n radius s = s).
Proof.
  split; [| split; [| split]].
  - intros [Hk | Hbad]; [now apply GetRadius_not_tube |].
    destruct (Z.eq_dec (ShapeName s) Tube) as [Hk | Hk]; [| now apply GetRadius_not_tube].
    now apply GetRadius_fail_iff.
  - apply SetRadiusAt_refused.
  - intros Hs Hgt. apply SetRadiusAt_refused. right.
    destruct (GetRadius_real s n Hs) as (r & E & Hr). rewrite E in *.
    unfold dgt in Hgt.
    apply dle_Fin_true.
    destruct (Rlt_dec 0 r) as [Hlt |]; [| lra].
    rewrite dlt_Fin_true in Hgt by assumption. discriminate.
  - intros cp1 cp2 x y z Hk Hp E1 E2 P1 P2.
    assert (E : GetRadiusAtNthControlPoint s n = Fin 0).
    { rewrite (GetRadius_ok s n Hk Hp).
      destruct (pair_in_store s n Hp) as (c1 & c2 & F1 & F2 & ->).
      rewrite E1 in F1. rewrite E2 in F2.
      injection F1 as <-. injection F2 as <-. simpl fst. simpl snd.
      rewrite P1, P2, distance_real3, ddiv_Fin_2. f_equal.
      replace (distR x y z x y z) with 0%R; [lra |].
      symmetry. apply distR_zero_iff. auto. }
    split; [exact E |].
    apply SetRadiusAt_refused. right. rewrite E. apply dle_Fin_true. lra.
Qed.

(** The first pair of [tube_coincident] has radius 0 and keeps it. *)
Lemma SetRadiusAtNthControlPoint_refusals_witness :
  GetRadiusAtNthControlPoint tube_coincident 0 = Fin 0
  /\ SetRadiusAtNthControlPoint 0 (Fin 5) tube_coincident = tube_coincident.
Proof.
  destruct (SetRadiusAtNthControlPoint_refusals tube_coincident 0 (Fin 5))
    as (_ & _ & _ & H).
  apply (H (placed 1 2 3) (placed 1 2 3) 1%R 2%R 3%R); try reflexivity.
  repeat split; cbv; congruence.
Defined.

End TubeRadius.

(* ================================================================== *)
(** ** Reslicing *)

Section Reslice.

Lemma Cross_real3 (a0 a1 a2 b0 b1 b2 : R) :
  vtkMath.Cross (real3 a0 a1 a2) (real3 b0 b1 b2)
  = real3 (a1 * b2 - a2 * b1) (a2 * b0 - a0 * b2) (a0 * b1 - a1 * b0).
Proof. reflexivity. Qed.

Lemma is_zero_vector_real3 (x y z : R) :
  is_zero_vector (real3 x y z) = true <-> (x = 0 /\ y = 0 /\ z = 0)%R.
Proof.
  unfold is_zero_vector, real3, deq; simpl.
  destruct (Req_dec_T x 0), (Req_dec_T y 0), (Req_dec_T z 0); simpl;
    split; intros H; try discriminate; try reflexivity; tauto.
Qed.

(** Without a slice node to drive, reslicing does nothing. *)
Lemma ResliceToControlPoints_no_slice_node (s : ShapeNode) :
  ResliceNode s = None \/ ResliceNode s = Some OtherNode ->
  ResliceToControlPoints s = s.
Proof.
  intros H. unfold ResliceToControlPoints, ResliceToLine, ResliceToPlane.
  destruct H as [-> | ->]; repeat match goal with |- context [if ?b then _ else _] =>
    destruct b end; reflexivity.
Qed.

Lemma ResliceToLine_slice (s : ShapeNode) (previous : option (Vec3 * Vec3 * Vec3 * Z)) :
  ResliceNode s = Some (SliceNode previous) ->
  ResliceToLine s
  = if is_zero_vector (vtkMath.Cross (position_at s 0) (position_at s 1)) then s
    else reslice_with (vtkMath.Cross (position_at s 0) (position_at s 1))
           (position_at s 1) (position_at s 0) s.
Proof. intros Hn. unfold ResliceToLine. rewrite Hn. reflexivity. Qed.

Lemma ResliceToPlane_slice (s : ShapeNode) (previous : option (Vec3 * Vec3 * Vec3 * Z)) :
  ResliceNode s = Some (SliceNode previous) ->
  ResliceToPlane s
  = if is_zero_vector
         (vtkMath.Cross (vsub (position_at s 1) (position_at s 0))
                        (vsub (position_at s 2) (position_at s 0)))
    then s
    else reslice_with
           (vtkMath.Cross (vsub (position_at s 1) (position_at s 0))
                          (vsub (position_at s 2) (position_at s 0)))
           (position_at s 1) (position_at s 0) s.
Proof. intros Hn. unfold ResliceToPlane. rewrite Hn. reflexivity. Qed.

(** C9: with a slice node attached, [ResliceToControlPoints] dispatches
    on the kind.  Sphere: the normal is the cross product of the
    positions [p0] and [p1] themselves, and nothing happens when its
    three components are zero.  Ring and Disk: the normal is the cross
    product of [p1 - p0] and [p2 - p0], and nothing happens when it is
    zero.  Otherwise the slice node receives the normal with [p1] and
    [p0].  Tube: nothing happens. *)
Theorem ResliceToControlPoints_dispatch (s : ShapeNode)
    (previous : option (Vec3 * Vec3 * Vec3 * Z)) :
  ResliceNode s = Some (SliceNode previous) ->
  let p0 := position_at s 0 in
  let p1 := position_at s 1 in
  let p2 := position_at s 2 in
  (ShapeName s = Sphere ->
     ResliceToControlPoints s
     = if is_zero_vector (vtkMath.Cross p0 p1) then s
       else reslice_with (vtkMath.Cross p0 p1) p1 p0 s)
  /\ (ShapeName s = Ring \/ ShapeName s = Disk ->
     ResliceToControlPoints s
     = if is_zero_vector (vtkMath.Cross (vsub p1 p0) (vsub p2 p0)) then s
       else reslice_with (vtkMath.Cross (vsub p1 p0) (vsub p2 p0)) p1 p0 s)
  /\ (ShapeName s = Tube -> ResliceToControlPoints s = s).
Proof.
  intros Hn p0 p1 p2. unfold ResliceToControlPoints. split; [| split].
  - intros ->. simpl. apply (ResliceToLine_slice s previous Hn).
  - intros [-> | ->]; simpl; apply (ResliceToPlane_slice s previous Hn).
  - intros ->. reflexivity.
Qed.

(** The sphere from (1,0,0) to (1,1,0): the slice node receives the
    normal (0,0,1) = (1,0,0) x (1,1,0), not a vector relative to the
    first point. *)
Lemma ResliceToControlPoints_dispatch_witness :
  ResliceNode (ResliceToControlPoints sphere_sliced)
  = Some (SliceNode (Some (real3 (0 * 0 - 0 * 1) (0 * 1 - 1 * 0) (1 * 1 - 0 * 1),
                           real3 1 1 0, real3 1 0 0, 0%Z))).
Proof.
  destruct (ResliceToControlPoints_dispatch sphere_sliced None eq_refl) as (H & _).
  rewrite (H eq_refl).
  change (position_at sphere_sliced 0) with (real3 1 0 0).
  change (position_at sphere_sliced 1) with (real3 1 1 0).
  rewrite Cross_real3.
  destruct (is_zero_vector (real3 (0 * 0 - 0 * 1) (0 * 1 - 1 * 0) (1 * 1 - 0 * 1))) eqn:E.
  - apply is_zero_vector_real3 in E. exfalso. lra.
  - reflexivity.
Defined.

(** A sphere whose two points are in line with the origin is not
    resliced. *)
Example ResliceToControlPoints_collinear_with_origin :
  let s := set_ResliceNode (Some (SliceNode None)) (sphere_0_10 Centered) in
  ResliceToControlPoints s = s.
Proof.
  intros s.
  change (ResliceToControlPoints s) with (ResliceToLine s).
  rewrite (ResliceToLine_slice s None eq_refl).
  change (position_at s 0) with (real3 0 0 0).
  change (position_at s 1) with (real3 10 0 0).
  rewrite Cross_real3.
  replace (is_zero_vector _) with true; [reflexivity |].
  symmetry. apply is_zero_vector_real3. lra.
Qed.

End Reslice.

(* ================================================================== *)
(** ** [FindLinearCoordinateByDistance] on a line of length zero *)

Section LineFacts.
Local Open Scope R_scope.

(** With a line of length zero every coordinate computed is a NaN. *)
Lemma FindLinear_coincident (x y z d : R) :
  FindLinearCoordinateByDistance (real3 x y z) (real3 x y z) (Fin d)
  = mkVec3 NaN NaN NaN.
Proof.
  unfold FindLinearCoordinateByDistance.
  fold (distance (real3 x y z) (real3 x y z)).
  rewrite distance_real3.
  replace (distR x y z x y z) with 0 by (symmetry; apply distR_zero_iff; auto).
  simpl. unfold ddiv.
  destruct (Req_dec_T 0 0) as [_ | H]; [| contradiction].
  assert (Hx : x - x = 0) by ring.
  assert (Hy : y - y = 0) by ring.
  assert (Hz : z - z = 0) by ring.
  destruct (Req_dec_T d 0); simpl; unfold dmul;
    destruct (Req_dec_T (x - x) 0), (Req_dec_T (y - y) 0), (Req_dec_T (z - z) 0);
    try contradiction; reflexivity.
Qed.

End LineFacts.

(* ================================================================== *)
(** ** Reading a position after a write *)

Section GetSet.
Local Open Scope Z_scope.

Lemma SetNth_length (s : ShapeNode) (n : Z) (p : Vec3) :
  length (ControlPoints (SetNthControlPointPositionWorld n p s)) = length (ControlPoints s).
Proof.
  unfold SetNthControlPointPositionWorld.
  destruct (valid_index (ControlPoints s) n); [| reflexivity].
  simpl. apply replace_nth_length.
Qed.

Lemma SetNth_ShapeName (s : ShapeNode) (n : Z) (p : Vec3) :
  ShapeName (SetNthControlPointPositionWorld n p s) = ShapeName s.
Proof.
  unfold SetNthControlPointPositionWorld.
  destruct (valid_index (ControlPoints s) n); reflexivity.
Qed.

Lemma SetNth_RadiusMode (s : ShapeNode) (n : Z) (p : Vec3) :
  RadiusMode (SetNthControlPointPositionWorld n p s) = RadiusMode s.
Proof.
  unfold SetNthControlPointPositionWorld.
  destruct (valid_index (ControlPoints s) n); reflexivity.
Qed.

Lemma GetNth_SetNth_same (s : ShapeNode) (n : Z) (p buffer : Vec3) :
  0 <= n < Z.of_nat (length (ControlPoints s)) ->
  GetNthControlPointPositionWorld (SetNthControlPointPositionWorld n p s) n buffer = p.
Proof.
  intros Hn.
  assert (Hv : valid_index (ControlPoints s) n = Some (Z.to_nat n))
    by (apply valid_index_Some; split; lia).
  unfold GetNthControlPointPositionWorld.
  replace (valid_index (ControlPoints (SetNthControlPointPositionWorld n p s)) n)
    with (Some (Z.to_nat n))
    by (symmetry; apply valid_index_Some; rewrite SetNth_length; split; lia).
  unfold SetNthControlPointPositionWorld. rewrite Hv. simpl.
  destruct (nth_error (ControlPoints s) (Z.to_nat n)) as [cp |] eqn:E;
    [| apply nth_error_None in E; lia].
  now rewrite (nth_error_replace_nth_same _ _ _ _ E).
Qed.

Lemma GetNth_SetNth_other (s : ShapeNode) (n m : Z) (p buffer : Vec3) :
  n <> m ->
  GetNthControlPointPositionWorld (SetNthControlPointPositionWorld n p s) m buffer
  = GetNthControlPointPositionWorld s m buffer.
Proof.
  intros Hnm. unfold GetNthControlPointPositionWorld.
  replace (valid_index (ControlPoints (SetNthControlPointPositionWorld n p s)) m)
    with (valid_index (ControlPoints s) m)
    by (unfold valid_index; now rewrite SetNth_length).
  destruct (valid_index (ControlPoints s) m) as [j |] eqn:Ej; [| reflexivity].
  unfold SetNthControlPointPositionWorld.
  destruct (valid_index (ControlPoints s) n) as [i |] eqn:Ei; [| reflexivity].
  simpl. rewrite nth_error_replace_nth_other; [reflexivity |].
  apply valid_index_Some in Ei as [-> _]. apply valid_index_Some in Ej as [-> _].
  congruence.
Qed.

(** With no undefined point every point is defined, and a write keeps
    it so. *)
Lemma undefined_zero_all_defined (s : ShapeNode) :
  GetNumberOfUndefinedControlPoints s = 0 <-> forallb Defined (ControlPoints s) = true.
Proof.
  unfold GetNumberOfUndefinedControlPoints.
  induction (ControlPoints s) as [| cp l IH]; simpl; [tauto |].
  destruct (Defined cp); simpl.
  - exact IH.
  - split; [lia | discriminate].
Qed.

Lemma all_defined_count (s : ShapeNode) (includePreview : bool) :
  forallb Defined (ControlPoints s) = true ->
  GetNumberOfDefinedControlPoints includePreview s = Z.of_nat (length (ControlPoints s)).
Proof.
  intros H. apply undefined_zero_all_defined in H.
  pose proof (defined_plus_undefined s includePreview) as E.
  unfold GetNumberOfControlPoints in E. lia.
Qed.

Lemma replace_nth_all_defined (l : list ControlPoint) (i : nat) (p : Vec3) :
  forallb Defined l = true ->
  forallb Defined (replace_nth l i (fun _ => mkControlPoint p true)) = true.
Proof.
  revert i. induction l as [| cp l IH]; intros [| i] H; simpl in *; try reflexivity.
  - apply andb_prop in H as [_ H]. exact H.
  - apply andb_prop in H as [H1 H2]. rewrite H1. simpl. now apply IH.
Qed.

Lemma SetNth_all_defined (s : ShapeNode) (n : Z) (p : Vec3) :
  forallb Defined (ControlPoints s) = true ->
  forallb Defined (ControlPoints (SetNthControlPointPositionWorld n p s)) = true.
Proof.
  intros H. unfold SetNthControlPointPositionWorld.
  destruct (valid_index (ControlPoints s) n); [| assumption].
  simpl. now apply replace_nth_all_defined.
Qed.

End GetSet.

(* ================================================================== *)
(** ** [SetRadiusAtNthControlPoint] *)

Section SetRadiusAtFacts.

Lemma pair_positions_first (s : ShapeNode) (n : Z) :
  (0 <= n)%Z ->
  pair_positions s n = (position_at s (pair_first n), position_at s (pair_first n + 1)).
Proof.
  intros Hn. unfold pair_positions, pair_first, position_at.
  rewrite rem_2_even by assumption.
  destruct (Z.even n); [reflexivity |].
  now replace (n - 1 + 1)%Z with n by lia.
Qed.

Lemma pair_first_bounds (s : ShapeNode) (n : Z) :
  radius_precondition s n ->
  (0 <= pair_first n
   /\ pair_first n + 1 < Z.of_nat (length (ControlPoints s)))%Z.
Proof.
  intros Hp. destruct (pair_in_store s n Hp) as (cp1 & cp2 & E1 & E2 & _).
  fold (pair_first n) in E1, E2.
  assert (H1 : nth_error (ControlPoints s) (Z.to_nat (pair_first n)) <> None) by congruence.
  assert (H2 : nth_error (ControlPoints s) (Z.to_nat (pair_first n + 1)) <> None) by congruence.
  apply nth_error_Some in H1, H2.
  destruct Hp as (Hn & _). unfold pair_first in *.
  destruct (Z.even n) eqn:E; [lia |].
  assert (n <> 0)%Z by (intros ->; discriminate). lia.
Qed.

Lemma SetNth_radius_precondition (s : ShapeNode) (n m : Z) (p : Vec3) :
  radius_precondition s n ->
  radius_precondition (SetNthControlPointPositionWorld m p s) n.
Proof.
  unfold radius_precondition. intros (Hn & Hu & H4 & He & Hlt).
  apply undefined_zero_all_defined in Hu.
  pose proof (SetNth_all_defined s m p Hu) as Hu'.
  rewrite (all_defined_count s false Hu) in *.
  rewrite (all_defined_count _ false Hu'), SetNth_length.
  repeat split; try assumption.
  now apply undefined_zero_all_defined.
Qed.

End SetRadiusAtFacts.

(* ================================================================== *)
(** ** Disk spacing *)

Section DiskSpacingFacts.
Local Open Scope R_scope.

(** [DescribeDiskPointSpacing] on a disk of three defined points. *)
Lemma Describe_three (s : ShapeNode) (p1 p2 p3 : Vec3) :
  ShapeName s = Disk ->
  ControlPoints s = [mkControlPoint p1 true; mkControlPoint p2 true; mkControlPoint p3 true] ->
  DescribeDiskPointSpacing s
  = if (distance p1 p2 <=? distance p1 p3)%D
    then Some (mkDiskSpacing p2 p3 (distance p1 p2) (distance p1 p3))
    else Some (mkDiskSpacing p3 p2 (distance p1 p3) (distance p1 p2)).
Proof.
  intros Hk Hc.
  unfold DescribeDiskPointSpacing, GetNumberOfDefinedControlPoints,
    GetNthControlPointPositionWorld.
  rewrite Hk, Hc. reflexivity.
Qed.

Lemma Describe_fails (s : ShapeNode) :
  ShapeName s <> Disk \/ GetNumberOfDefinedControlPoints true s <> 3%Z ->
  DescribeDiskPointSpacing s = None.
Proof.
  intros H. unfold DescribeDiskPointSpacing.
  destruct (ShapeName s =? Disk)%Z eqn:Ek; [| reflexivity]. simpl.
  destruct (GetNumberOfDefinedControlPoints true s =? 3)%Z eqn:Ec; [| reflexivity].
  apply Z.eqb_eq in Ek, Ec. tauto.
Qed.

(** On real coordinates the inner radius is the smaller distance to the
    centre and the outer radius the larger one; at equal distances the
    point stored first is the closest. *)
Lemma Describe_real (s : ShapeNode) (cx cy cz ax ay az bx by' bz : R) :
  ShapeName s = Disk ->
  ControlPoints s = [placed cx cy cz; placed ax ay az; placed bx by' bz] ->
  DescribeDiskPointSpacing s
  = if Rle_dec (distR cx cy cz ax ay az) (distR cx cy cz bx by' bz)
    then Some (mkDiskSpacing (real3 ax ay az) (real3 bx by' bz)
                 (Fin (distR cx cy cz ax ay az)) (Fin (distR cx cy cz bx by' bz)))
    else Some (mkDiskSpacing (real3 bx by' bz) (real3 ax ay az)
                 (Fin (distR cx cy cz bx by' bz)) (Fin (distR cx cy cz ax ay az))).
Proof.
  intros Hk Hc. rewrite (Describe_three s _ _ _ Hk Hc).
  rewrite !distance_real3. unfold dle.
  destruct (Rle_dec (distR cx cy cz ax ay az) (distR cx cy cz bx by' bz)); reflexivity.
Qed.

Lemma distR_0_3 : distR 0 0 0 3 0 0 = 3.
Proof.
  unfold distR, dist2R.
  replace ((0 - 3) * (0 - 3) + (0 - 0) * (0 - 0) + (0 - 0) * (0 - 0)) with (3 * 3) by ring.
  apply sqrt_square. lra.
Qed.

Lemma distR_0_7 : distR 0 0 0 0 7 0 = 7.
Proof.
  unfold distR, dist2R.
  replace ((0 - 0) * (0 - 0) + (0 - 7) * (0 - 7) + (0 - 0) * (0 - 0)) with (7 * 7) by ring.
  apply sqrt_square. lra.
Qed.

(** C8 (as stated, refuted): [disk_nan] and [disk_nan_swapped] are two
    disks of three defined control points that differ by the stored
    order of the two points other than the centre.  The distance to the
    point of NaN coordinates is a NaN, and [distance2 <= distance3] is
    false whichever side the NaN is on: the first disk is described by
    the radii (7, NaN), the second one by (NaN, 7). *)
Lemma DescribeDiskPointSpacing_order_matters :
  exists d d',
    GetNumberOfDefinedControlPoints true disk_nan = 3%Z
    /\ GetNumberOfDefinedControlPoints true disk_nan_swapped = 3%Z
    /\ DescribeDiskPointSpacing disk_nan = Some d
    /\ DescribeDiskPointSpacing disk_nan_swapped = Some d'
    /\ innerRadius d = Fin 7 /\ outerRadius d = NaN
    /\ innerRadius d' = NaN /\ outerRadius d' = Fin 7.
Proof.
  exists (mkDiskSpacing (real3 0 7 0) NaN3 (Fin 7) NaN),
         (mkDiskSpacing NaN3 (real3 0 7 0) NaN (Fin 7)).
  split; [reflexivity |]. split; [reflexivity |].
  split; [| split; [| repeat split]].
  - rewrite (Describe_three disk_nan (real3 0 0 0) NaN3 (real3 0 7 0) eq_refl eq_refl).
    rewrite distance_NaN3_r, dle_NaN_l, distance_real3, distR_0_7. reflexivity.
  - rewrite (Describe_three disk_nan_swapped (real3 0 0 0) (real3 0 7 0) NaN3
               eq_refl eq_refl).
    rewrite distance_NaN3_r, dle_NaN_r, distance_real3, distR_0_7. reflexivity.
Qed.

(** [DescribeDiskPointSpacing] on a disk that counts three defined
    points reads the positions of index 0, 1 and 2. *)
Lemma Describe_positions (s : ShapeNode) :
  ShapeName s = Disk ->
  GetNumberOfDefinedControlPoints true s = 3%Z ->
  DescribeDiskPointSpacing s
  = if (distance (position_at s 0) (position_at s 1)
        <=? distance (position_at s 0) (position_at s 2))%D
    then Some (mkDiskSpacing (position_at s 1) (position_at s 2)
                 (distance (position_at s 0) (position_at s 1))
                 (distance (position_at s 0) (position_at s 2)))
    else Some (mkDiskSpacing (position_at s 2) (position_at s 1)
                 (distance (position_at s 0) (position_at s 2))
                 (distance (position_at s 0) (position_at s 1))).
Proof.
  intros Hk Hc. unfold DescribeDiskPointSpacing. rewrite Hk, Hc. reflexivity.
Qed.

(** C8 (amended): on a disk that counts exactly three defined control
    points, with [center], [a] and [b] the positions of index 0, 1 and
    2, [DescribeDiskPointSpacing] reads the node and returns a result
    that depends on nothing else.  With [da] and [db] the distances the
    code computes from the centre to [a] and to [b]: the closest point
    is [a] and the radii are [(da, db)] when [da <= db], in particular
    when [da == db]; otherwise the closest point is [b] and the radii
    are [(db, da)].  When the two distances compare, that is when
    neither is a NaN, a disk that stores [a] and [b] in the other order
    has the same inner and the same outer radius.  With another kind, or
    a count of defined points other than three, the function fails. *)
Theorem DescribeDiskPointSpacing_by_distance (s swapped : ShapeNode) (center a b : Vec3) :
  (ShapeName s <> Disk \/ GetNumberOfDefinedControlPoints true s <> 3%Z ->
   DescribeDiskPointSpacing s = None)
  /\ (ShapeName s = Disk ->
      GetNumberOfDefinedControlPoints true s = 3%Z ->
      position_at s 0 = center -> position_at s 1 = a -> position_at s 2 = b ->
      let da := distance center a in
      let db := distance center b in
      exists d,
        DescribeDiskPointSpacing s = Some d
        /\ ((da <=? db)%D = true -> d = mkDiskSpacing a b da db)
        /\ ((da <=? db)%D = false -> d = mkDiskSpacing b a db da)
        /\ ((da ==? db)%D = true -> closestPoint d = a)
        /\ (ShapeName swapped = Disk ->
            GetNumberOfDefinedControlPoints true swapped = 3%Z ->
            position_at swapped 0 = center ->
            position_at swapped 1 = b -> position_at swapped 2 = a ->
            (da <=? db)%D = true \/ (db <=? da)%D = true ->
            exists d',
              DescribeDiskPointSpacing swapped = Some d'
              /\ innerRadius d' = innerRadius d
              /\ outerRadius d' = outerRadius d)).
Proof.
  split; [apply Describe_fails |].
  intros Hk Hc H0 H1 H2 da db.
  rewrite (Describe_positions s Hk Hc), H0, H1, H2. fold da db.
  assert (Hs : ShapeName swapped = Disk ->
               GetNumberOfDefinedControlPoints true swapped = 3%Z ->
               position_at swapped 0 = center ->
               position_at swapped 1 = b -> position_at swapped 2 = a ->
               DescribeDiskPointSpacing swapped
               = if (db <=? da)%D
                 then Some (mkDiskSpacing b a db da)
                 else Some (mkDiskSpacing a b da db)).
  { intros Hk' Hc' H0' H1' H2'.
    rewrite (Describe_positions swapped Hk' Hc'), H0', H1', H2'. reflexivity. }
  destruct (da <=? db)%D eqn:Eab.
  - eexists. split; [reflexivity |].
    split; [reflexivity |]. split; [discriminate |]. split; [reflexivity |].
    intros Hk' Hc' H0' H1' H2' _. rewrite (Hs Hk' Hc' H0' H1' H2').
    destruct (db <=? da)%D eqn:Eba.
    + eexists. split; [reflexivity |].
      pose proof (dle_antisym da db Eab Eba) as E. simpl. auto.
    + eexists. split; [reflexivity |]. simpl. auto.
  - eexists. split; [reflexivity |].
    split; [discriminate |]. split; [reflexivity |].
    split; [intros E; apply deq_dle in E; congruence |].
    intros Hk' Hc' H0' H1' H2' [E | Eba]; [discriminate |].
    rewrite (Hs Hk' Hc' H0' H1' H2'), Eba.
    eexists. split; [reflexivity |]. simpl. auto.
Qed.

(** On the disk of centre (0,0,0) over (3,0,0) and (0,7,0) the closest
    point is (3,0,0), and the radii are the same when the two points are
    stored in the other order. *)
Lemma DescribeDiskPointSpacing_by_distance_witness :
  exists d d',
    DescribeDiskPointSpacing disk_3_7 = Some d
    /\ d = mkDiskSpacing (real3 3 0 0) (real3 0 7 0)
             (distance (real3 0 0 0) (real3 3 0 0)) (distance (real3 0 0 0) (real3 0 7 0))
    /\ DescribeDiskPointSpacing
         (node_with Disk Centered [placed 0 0 0; placed 0 7 0; placed 3 0 0]) = Some d'
    /\ innerRadius d' = innerRadius d
    /\ outerRadius d' = outerRadius d.
Proof.
  assert (Hle : (distance (real3 0 0 0) (real3 3 0 0)
                 <=? distance (real3 0 0 0) (real3 0 7 0))%D = true).
  { rewrite !distance_real3, distR_0_3, distR_0_7. apply dle_Fin_true. lra. }
  destruct (DescribeDiskPointSpacing_by_distance disk_3_7
              (node_with Disk Centered [placed 0 0 0; placed 0 7 0; placed 3 0 0])
              (real3 0 0 0) (real3 3 0 0) (real3 0 7 0)) as [_ H].
  destruct (H eq_refl eq_refl eq_refl eq_refl eq_refl) as (d & E & Hd & _ & _ & Hsw).
  destruct (Hsw eq_refl eq_refl eq_refl eq_refl eq_refl (or_introl Hle))
    as (d' & E' & Hi & Ho).
  exists d, d'. repeat split; try assumption. exact (Hd Hle).
Defined.

End DiskSpacingFacts.

(* ================================================================== *)
(** ** Disk: the inner and the outer radius *)

Section DiskRadiusFacts.
Local Open Scope R_scope.

Lemma dist2R_self (x y z : R) : dist2R x y z x y z = 0.
Proof. unfold dist2R. ring. Qed.

(** C3 (as the code behaves): [SetInnerRadius] has no guard for a
    closest point that lies on the centre, where
    [SetRadiusAtNthControlPoint] returns on a current radius [<= 0].  On
    the disk whose second point lies on the centre, [SetInnerRadius(3)]
    passes every guard (3 > 0, the spacing is described, 3 < 7); the
    line from the centre to the closest point has length zero, the
    coordinates computed are NaN, and they are written to index 0.  The
    radii derived afterwards are NaN: the inner one is not less than the
    outer one. *)
Lemma SetInnerRadius_on_centre :
  exists d d',
    DescribeDiskPointSpacing disk_degenerate = Some d
    /\ innerRadius d = Fin 0 /\ outerRadius d = Fin 7
    /\ ControlPoints (SetInnerRadius (Fin 3) disk_degenerate)
       = [mkControlPoint (mkVec3 NaN NaN NaN) true; placed 0 0 0; placed 0 7 0]
    /\ DescribeDiskPointSpacing (SetInnerRadius (Fin 3) disk_degenerate) = Some d'
    /\ innerRadius d' = NaN /\ outerRadius d' = NaN
    /\ (innerRadius d' <? outerRadius d')%D = false.
Proof.
  assert (E0 : distR 0 0 0 0 0 0 = 0) by (apply distR_zero_iff; auto).
  assert (Hd : DescribeDiskPointSpacing disk_degenerate
               = Some (mkDiskSpacing (real3 0 0 0) (real3 0 7 0) (Fin 0) (Fin 7))).
  { rewrite (Describe_real disk_degenerate 0 0 0 0 0 0 0 7 0 eq_refl eq_refl).
    rewrite E0, distR_0_7. destruct (Rle_dec 0 7); [reflexivity | lra]. }
  assert (Hs : SetInnerRadius (Fin 3) disk_degenerate
               = SetNthControlPointPositionWorld 0 (mkVec3 NaN NaN NaN) disk_degenerate).
  { unfold SetInnerRadius. rewrite Hd.
    change (negb (ShapeName disk_degenerate =? Disk)%Z) with false. cbv iota.
    rewrite dle_Fin_false by lra.
    cbn [outerRadius innerRadius closestPoint]. unfold dge.
    rewrite dle_Fin_false by lra.
    change (GetNthControlPointPositionWorld disk_degenerate 0 zero3) with (real3 0 0 0).
    change (Fin 3 - Fin 0)%D with (Fin (3 - 0)).
    rewrite FindLinear_coincident.
    replace (GetClosestControlPointIndexToPositionWorld disk_degenerate (real3 0 0 0))
      with 0%Z; [reflexivity |].
    unfold GetClosestControlPointIndexToPositionWorld, disk_degenerate, node_with, placed.
    cbn [ControlPoints closest_scan Position]. rewrite !Distance2_real3.
    rewrite dist2R_self.
    rewrite (dlt_Fin_false 0 0) by lra.
    cbn [orb Z.ltb Z.compare Z.add].
    rewrite dlt_Fin_false by apply dist2R_nonneg. reflexivity. }
  eexists. eexists. split; [exact Hd |].
  split; [reflexivity |]. split; [reflexivity |].
  rewrite Hs. split; [reflexivity |].
  split; [| split; [| split]].
  - apply (Describe_three _ (mkVec3 NaN NaN NaN) (real3 0 0 0) (real3 0 7 0));
      reflexivity.
  - reflexivity.
  - reflexivity.
  - reflexivity.
Qed.

End DiskRadiusFacts.

(* ================================================================== *)
(** ** [SetShapeName]: the bounded kinds, and one call after another *)

Section ShapeKindMore.
Local Open Scope Z_scope.

Lemma SetShapeName_Sphere_eq (s : ShapeNode) :
  SetShapeName Sphere s
  = mkShapeNode Sphere (RadiusMode s) 2 2
      [lengthMeasurement "radius" true; areaMeasurement "area"; volumeMeasurement false]
      (RemovingPairControlPoint s) (firstn 2 (ControlPoints s)) (ResliceNode s).
Proof.
  unfold SetShapeName. simpl. rewrite after_switch_bounded by (simpl; lia). reflexivity.
Qed.

Lemma SetShapeName_Ring_eq (s : ShapeNode) :
  SetShapeName Ring s
  = mkShapeNode Ring (RadiusMode s) 3 3
      [lengthMeasurement "radius" true; areaMeasurement "area"]
      (RemovingPairControlPoint s) (firstn 3 (ControlPoints s)) (ResliceNode s).
Proof.
  unfold SetShapeName. simpl. rewrite after_switch_bounded by (simpl; lia). reflexivity.
Qed.

Lemma SetShapeName_Disk_eq (s : ShapeNode) :
  SetShapeName Disk s
  = mkShapeNode Disk (RadiusMode s) 3 3
      [lengthMeasurement "innerRadius" true; lengthMeasurement "outerRadius" true;
       lengthMeasurement "width" false; areaMeasurement "area";
       areaMeasurement "innerArea"; areaMeasurement "outerArea"]
      (RemovingPairControlPoint s) (firstn 3 (ControlPoints s)) (ResliceNode s).
Proof.
  unfold SetShapeName. simpl. rewrite after_switch_bounded by (simpl; lia). reflexivity.
Qed.

Lemma SetShapeName_Tube_eq (s : ShapeNode) :
  SetShapeName Tube s
  = mkShapeNode Tube (RadiusMode s) (-1) (-1)
      [areaMeasurement "area"; volumeMeasurement true]
      (RemovingPairControlPoint s) (ControlPoints s) (ResliceNode s).
Proof. reflexivity. Qed.

Lemma SetShapeName_other_eq (s : ShapeNode) (kind : Z) :
  kind <> Sphere -> kind <> Ring -> kind <> Disk -> kind <> Tube ->
  SetShapeName kind s = set_ShapeName kind s.
Proof.
  intros HS HR HD HT. unfold SetShapeName.
  apply Z.eqb_neq in HS, HR, HD, HT. now rewrite HS, HR, HD, HT.
Qed.

Lemma kind_cases (kind : Z) :
  kind = Sphere \/ kind = Ring \/ kind = Disk \/ kind = Tube
  \/ (kind <> Sphere /\ kind <> Ring /\ kind <> Disk /\ kind <> Tube).
Proof. unfold Sphere, Ring, Disk, Tube. lia. Qed.

(** Whatever the kind, the store left by [SetShapeName] is a prefix of
    the store it found, and the radius mode, the removal flag and the
    slice node are not touched. *)
Lemma SetShapeName_frame (s : ShapeNode) (kind : Z) :
  RadiusMode (SetShapeName kind s) = RadiusMode s
  /\ RemovingPairControlPoint (SetShapeName kind s) = RemovingPairControlPoint s
  /\ ResliceNode (SetShapeName kind s) = ResliceNode s
  /\ exists j, ControlPoints (SetShapeName kind s) = firstn j (ControlPoints s).
Proof.
  destruct (kind_cases kind) as [-> | [-> | [-> | [-> | (HS & HR & HD & HT)]]]].
  - rewrite SetShapeName_Sphere_eq. simpl. repeat split. now exists 2%nat.
  - rewrite SetShapeName_Ring_eq. simpl. repeat split. now exists 3%nat.
  - rewrite SetShapeName_Disk_eq. simpl. repeat split. now exists 3%nat.
  - rewrite SetShapeName_Tube_eq. simpl. repeat split.
    exists (length (ControlPoints s)). now rewrite firstn_all.
  - rewrite SetShapeName_other_eq by assumption. simpl. repeat split.
    exists (length (ControlPoints s)). now rewrite firstn_all.
Qed.

(** X1: for Sphere, Ring and Disk, [SetShapeName] stores the kind, sets
    the required and the maximum count to 2, 3 and 3, and its loop
    leaves exactly the first "maximum" control points: the store never
    holds more points than the maximum. *)
Theorem SetShapeName_bounded (s : ShapeNode) (kind m : Z) :
  (kind = Sphere /\ m = 2) \/ (kind = Ring /\ m = 3) \/ (kind = Disk /\ m = 3) ->
  let s' := SetShapeName kind s in
  ShapeName s' = kind
  /\ RequiredNumberOfControlPoints s' = m
  /\ MaximumNumberOfControlPoints s' = m
  /\ ControlPoints s' = firstn (Z.to_nat m) (ControlPoints s)
  /\ GetNumberOfControlPoints s' <= MaximumNumberOfControlPoints s'.
Proof.
  intros [[-> ->] | [[-> ->] | [-> ->]]] s'; subst s';
    [rewrite SetShapeName_Sphere_eq | rewrite SetShapeName_Ring_eq
     | rewrite SetShapeName_Disk_eq];
    unfold GetNumberOfControlPoints; cbn [ShapeName RequiredNumberOfControlPoints
      MaximumNumberOfControlPoints ControlPoints];
    (split; [reflexivity |]); (split; [reflexivity |]); (split; [reflexivity |]);
    (split; [reflexivity |]);
    match goal with |- Z.of_nat (length (firstn ?k ?l)) <= _ =>
      pose proof (firstn_le_length k l); lia end.
Qed.

(** The six-point tube turned into a sphere keeps its first two points. *)
Lemma SetShapeName_bounded_witness :
  ControlPoints (SetShapeName Sphere tube_six) = [placed 0 0 0; placed 1 0 0]
  /\ GetNumberOfControlPoints (SetShapeName Sphere tube_six)
     <= MaximumNumberOfControlPoints (SetShapeName Sphere tube_six).
Proof.
  destruct (SetShapeName_bounded tube_six Sphere 2) as (_ & _ & _ & Hc & Hn).
  - left. split; reflexivity.
  - split; [exact Hc | exact Hn].
Defined.

(** X2: [SetShapeName] with the same kind a second time changes
    nothing, for every value of the kind. *)
Theorem SetShapeName_idempotent (s : ShapeNode) (kind : Z) :
  SetShapeName kind (SetShapeName kind s) = SetShapeName kind s.
Proof.
  destruct (kind_cases kind) as [-> | [-> | [-> | [-> | (HS & HR & HD & HT)]]]].
  - rewrite !SetShapeName_Sphere_eq.
    cbn [ControlPoints RadiusMode RemovingPairControlPoint ResliceNode].
    now rewrite firstn_firstn.
  - rewrite !SetShapeName_Ring_eq.
    cbn [ControlPoints RadiusMode RemovingPairControlPoint ResliceNode].
    now rewrite firstn_firstn.
  - rewrite !SetShapeName_Disk_eq.
    cbn [ControlPoints RadiusMode RemovingPairControlPoint ResliceNode].
    now rewrite firstn_firstn.
  - rewrite !SetShapeName_Tube_eq. reflexivity.
  - rewrite !SetShapeName_other_eq by assumption. reflexivity.
Qed.

(** X3: a call of [SetShapeName] for a known kind erases what an
    earlier call for any kind had set: the kind, both counts and the
    measurement set are those the second call alone would give (and the
    radius mode, the removal flag and the slice node are those of the
    start).  Only the store remembers the first call: it is a prefix of
    the store the second call alone would leave. *)
Theorem SetShapeName_after_SetShapeName (s : ShapeNode) (k1 k2 : Z) :
  k2 = Sphere \/ k2 = Ring \/ k2 = Disk \/ k2 = Tube ->
  let a := SetShapeName k2 (SetShapeName k1 s) in
  let b := SetShapeName k2 s in
  ShapeName a = ShapeName b
  /\ RequiredNumberOfControlPoints a = RequiredNumberOfControlPoints b
  /\ MaximumNumberOfControlPoints a = MaximumNumberOfControlPoints b
  /\ Measurements a = Measurements b
  /\ RadiusMode a = RadiusMode b
  /\ RemovingPairControlPoint a = RemovingPairControlPoint b
  /\ ResliceNode a = ResliceNode b
  /\ exists j, ControlPoints a = firstn j (ControlPoints b).
Proof.
  intros Hk a b. subst a b.
  destruct (SetShapeName_frame s k1) as (Hm & Hf & Hr & j & Hj).
  destruct Hk as [-> | [-> | [-> | ->]]];
    [rewrite !SetShapeName_Sphere_eq | rewrite !SetShapeName_Ring_eq
     | rewrite !SetShapeName_Disk_eq | rewrite !SetShapeName_Tube_eq];
    cbn [ShapeName RequiredNumberOfControlPoints MaximumNumberOfControlPoints
         Measurements ControlPoints RadiusMode RemovingPairControlPoint ResliceNode];
    rewrite Hm, Hf, Hr, Hj; repeat split; exists j;
    rewrite ?firstn_firstn; try reflexivity; f_equal; lia.
Qed.

(** A tube made a sphere, then a disk: a disk with the two points the
    sphere kept, where the disk alone would have kept three. *)
Lemma SetShapeName_after_SetShapeName_witness :
  Measurements (SetShapeName Disk (SetShapeName Sphere tube_six))
  = Measurements (SetShapeName Disk tube_six)
  /\ MaximumNumberOfControlPoints (SetShapeName Disk (SetShapeName Sphere tube_six)) = 3
  /\ exists j, ControlPoints (SetShapeName Disk (SetShapeName Sphere tube_six))
               = firstn j (ControlPoints (SetShapeName Disk tube_six)).
Proof.
  assert (Hk : Disk = Sphere \/ Disk = Ring \/ Disk = Disk \/ Disk = Tube) by auto.
  destruct (SetShapeName_after_SetShapeName tube_six Sphere Disk Hk)
    as (_ & _ & Hmax & Hmeas & _ & _ & _ & Hj).
  split; [exact Hmeas |]. split; [| exact Hj].
  rewrite Hmax. reflexivity.
Defined.

End ShapeKindMore.

(* ================================================================== *)
(** ** Writes to the store, one after another *)

Section WriteFacts.
Local Open Scope Z_scope.

Lemma valid_index_same_length {A B : Type} (l : list A) (l' : list B) (n : Z) :
  length l = length l' -> valid_index l n = valid_index l' n.
Proof. intros H. unfold valid_index. now rewrite H. Qed.

Lemma replace_nth_overwrite {A : Type} (l : list A) (i : nat) (f : A -> A) (c : A) :
  replace_nth (replace_nth l i f) i (fun _ => c) = replace_nth l i (fun _ => c).
Proof.
  revert i. induction l as [| a l IH]; intros [| i]; simpl; try reflexivity.
  now rewrite IH.
Qed.

Lemma set_ControlPoints_same (s : ShapeNode) : set_ControlPoints (ControlPoints s) s = s.
Proof. now destruct s. Qed.

(** A write changes the store and nothing else of the node. *)
Lemma SetNth_only_store (s : ShapeNode) (n : Z) (p : Vec3) :
  SetNthControlPointPositionWorld n p s
  = set_ControlPoints (ControlPoints (SetNthControlPointPositionWorld n p s)) s.
Proof.
  unfold SetNthControlPointPositionWorld.
  destruct (valid_index (ControlPoints s) n); [reflexivity |].
  now rewrite set_ControlPoints_same.
Qed.

Lemma set_ControlPoints_SetNth (s : ShapeNode) (n : Z) (p : Vec3) (v : list ControlPoint) :
  set_ControlPoints v (SetNthControlPointPositionWorld n p s) = set_ControlPoints v s.
Proof.
  unfold SetNthControlPointPositionWorld.
  destruct (valid_index (ControlPoints s) n); reflexivity.
Qed.

Lemma SetNth_nth_error_other (s : ShapeNode) (n : Z) (p : Vec3) (k : nat) :
  Z.of_nat k <> n ->
  nth_error (ControlPoints (SetNthControlPointPositionWorld n p s)) k
  = nth_error (ControlPoints s) k.
Proof.
  intros Hk. unfold SetNthControlPointPositionWorld.
  destruct (valid_index (ControlPoints s) n) as [i |] eqn:E; [| reflexivity].
  apply valid_index_Some in E as [-> _]. simpl.
  apply nth_error_replace_nth_other. congruence.
Qed.

Lemma SetNth_overwrite (s : ShapeNode) (n : Z) (p q : Vec3) :
  SetNthControlPointPositionWorld n p (SetNthControlPointPositionWorld n q s)
  = SetNthControlPointPositionWorld n p s.
Proof.
  unfold SetNthControlPointPositionWorld at 1 3.
  rewrite (valid_index_same_length _ (ControlPoints s) n (SetNth_length s n q)).
  destruct (valid_index (ControlPoints s) n) as [i |] eqn:E.
  - unfold SetNthControlPointPositionWorld. rewrite E.
    unfold set_ControlPoints. simpl. now rewrite replace_nth_overwrite.
  - unfold SetNthControlPointPositionWorld. now rewrite E.
Qed.

Lemma SetNth_comm (s : ShapeNode) (n m : Z) (p q : Vec3) :
  n <> m ->
  SetNthControlPointPositionWorld n p (SetNthControlPointPositionWorld m q s)
  = SetNthControlPointPositionWorld m q (SetNthControlPointPositionWorld n p s).
Proof.
  intros Hnm.
  unfold SetNthControlPointPositionWorld at 1 3.
  rewrite (valid_index_same_length _ (ControlPoints s) n (SetNth_length s m q)).
  rewrite (valid_index_same_length _ (ControlPoints s) m (SetNth_length s n p)).
  unfold SetNthControlPointPositionWorld.
  destruct (valid_index (ControlPoints s) n) as [i |] eqn:En;
    destruct (valid_index (ControlPoints s) m) as [j |] eqn:Em;
    rewrite ?En, ?Em; try reflexivity.
  unfold set_ControlPoints. simpl. f_equal.
  apply valid_index_Some in En as [-> _]. apply valid_index_Some in Em as [-> _].
  apply replace_nth_comm. congruence.
Qed.

End WriteFacts.

(* ================================================================== *)
(** ** [SetRadius]: coincident points, and what it leaves alone *)

Section SetRadiusMore.
Local Open Scope R_scope.

(** X5: [SetRadius] does not look at the length of the line it scales.
    When the first two control points are one and the same point (of
    real coordinates), a call with [r > 0] on a shape that is not a disk
    stores NaN coordinates in point 1, and in point 0 as well in
    [Circumferential] mode. *)
Theorem SetRadius_coincident_points (s : ShapeNode) (r x y z : R) :
  ShapeName s <> Disk ->
  (2 <= length (ControlPoints s))%nat ->
  position_at s 0 = real3 x y z -> position_at s 1 = real3 x y z ->
  0 < r ->
  let s' := SetRadius (Fin r) s in
  position_at s' 1 = NaN3
  /\ (RadiusMode s = Circumferential -> position_at s' 0 = NaN3)
  /\ (RadiusMode s <> Circumferential -> position_at s' 0 = real3 x y z).
Proof.
  intros Hk Hn H0 H1 Hr s'. subst s'. unfold position_at in *.
  assert (E0 : distR x y z x y z = 0) by (apply distR_zero_iff; auto).
  unfold SetRadius. apply Z.eqb_neq in Hk. rewrite Hk.
  rewrite dle_Fin_false by assumption.
  rewrite H0, H1. fold (distance (real3 x y z) (real3 x y z)).
  rewrite distance_real3, E0, SetNth_RadiusMode.
  assert (Hd : exists d,
             ((Fin r - (if (RadiusMode s =? Centered)%Z then Fin 0 else Fin 0 / Fin 2))%D
              = Fin d)).
  { destruct (RadiusMode s =? Centered)%Z; [| rewrite ddiv_Fin_2]; eexists; reflexivity. }
  destruct Hd as [d ->]. rewrite !FindLinear_coincident. fold NaN3.
  destruct (RadiusMode s =? Circumferential)%Z eqn:Em.
  - apply Z.eqb_eq in Em. repeat split.
    + rewrite GetNth_SetNth_other by lia. apply GetNth_SetNth_same. lia.
    + intros _. apply GetNth_SetNth_same. rewrite SetNth_length. lia.
    + intros H. contradiction.
  - apply Z.eqb_neq in Em. repeat split.
    + apply GetNth_SetNth_same. lia.
    + intros H. contradiction.
    + intros _. rewrite GetNth_SetNth_other by lia. exact H0.
Qed.

Lemma SetRadius_coincident_points_witness :
  position_at (SetRadius (Fin 5) (sphere_coincident Circumferential)) 1 = NaN3
  /\ position_at (SetRadius (Fin 5) (sphere_coincident Circumferential)) 0 = NaN3
  /\ position_at (SetRadius (Fin 5) (sphere_coincident Centered)) 1 = NaN3
  /\ position_at (SetRadius (Fin 5) (sphere_coincident Centered)) 0 = real3 1 1 1.
Proof.
  assert (Hr : 0 < 5) by lra.
  assert (Hk : Sphere <> Disk) by discriminate.
  assert (Hn : (2 <= 2)%nat) by lia.
  destruct (SetRadius_coincident_points (sphere_coincident Circumferential) 5 1 1 1
              Hk Hn eq_refl eq_refl Hr) as (A1 & A0 & _).
  destruct (SetRadius_coincident_points (sphere_coincident Centered) 5 1 1 1
              Hk Hn eq_refl eq_refl Hr) as (B1 & _ & B0).
  split; [exact A1 |]. split; [exact (A0 eq_refl) |]. split; [exact B1 |].
  apply B0. discriminate.
Defined.

(** X6: [SetRadius] returns the node as it is on a disk and for a
    radius that is [<= 0].  In every case it changes nothing but the
    positions of the control points 0 and 1: the number of control
    points, every other control point and every other member of the
    node are as before. *)
Theorem SetRadius_frame (s : ShapeNode) (radius : double) :
  let s' := SetRadius radius s in
  (ShapeName s = Disk \/ (radius <=? Fin 0)%D = true -> s' = s)
  /\ s' = set_ControlPoints (ControlPoints s') s
  /\ length (ControlPoints s') = length (ControlPoints s)
  /\ (forall k : nat, (2 <= k)%nat ->
        nth_error (ControlPoints s') k = nth_error (ControlPoints s) k).
Proof.
  intros s'. subst s'. unfold SetRadius.
  destruct (ShapeName s =? Disk)%Z eqn:Ek.
  { repeat split; try reflexivity. now rewrite set_ControlPoints_same. }
  destruct (radius <=? Fin 0)%D eqn:Er.
  { repeat split; try reflexivity. now rewrite set_ControlPoints_same. }
  apply Z.eqb_neq in Ek.
  set (p2 := FindLinearCoordinateByDistance _ _ _).
  set (p1 := FindLinearCoordinateByDistance _ _ _).
  split; [intros [H | H]; [contradiction | discriminate] |].
  destruct (RadiusMode (SetNthControlPointPositionWorld 1 p2 s) =? Circumferential)%Z.
  - split; [| split].
    + rewrite (SetNth_only_store (SetNthControlPointPositionWorld 1 p2 s) 0 p1) at 1.
      apply set_ControlPoints_SetNth.
    + now rewrite !SetNth_length.
    + intros k Hk. rewrite !SetNth_nth_error_other by lia. reflexivity.
  - split; [| split].
    + apply SetNth_only_store.
    + apply SetNth_length.
    + intros k Hk. rewrite SetNth_nth_error_other by lia. reflexivity.
Qed.

End SetRadiusMore.

(* ================================================================== *)
(** ** Disk: what the two setters write *)

Section DiskRadiusMore.
Local Open Scope R_scope.

(** X8: [SetInnerRadius] and [SetOuterRadius] return the node as it is
    on a shape that is not a disk, for a radius that is [<= 0], and on
    a disk that does not have exactly 3 defined control points.  In
    every case each of them writes at most one control point: the
    number of control points and every other member of the node are as
    before, and all control points but one are untouched. *)
Theorem disk_setters_frame (s : ShapeNode) (radius : double) :
  (ShapeName s <> Disk \/ (radius <=? Fin 0)%D = true
   \/ GetNumberOfDefinedControlPoints true s <> 3%Z ->
   SetInnerRadius radius s = s /\ SetOuterRadius radius s = s)
  /\ (forall s', s' = SetInnerRadius radius s \/ s' = SetOuterRadius radius s ->
      s' = set_ControlPoints (ControlPoints s') s
      /\ length (ControlPoints s') = length (ControlPoints s)
      /\ exists k : Z, forall j : nat, Z.of_nat j <> k ->
           nth_error (ControlPoints s') j = nth_error (ControlPoints s) j).
Proof.
  assert (Hsame : s = set_ControlPoints (ControlPoints s) s
                  /\ length (ControlPoints s) = length (ControlPoints s)
                  /\ exists k : Z, forall j : nat, Z.of_nat j <> k ->
                       nth_error (ControlPoints s) j = nth_error (ControlPoints s) j).
  { split; [now rewrite set_ControlPoints_same |]. split; [reflexivity |].
    now exists 0%Z. }
  assert (Hset : forall n p,
             SetNthControlPointPositionWorld n p s
             = set_ControlPoints
                 (ControlPoints (SetNthControlPointPositionWorld n p s)) s
             /\ length (ControlPoints (SetNthControlPointPositionWorld n p s))
                = length (ControlPoints s)
             /\ exists k : Z, forall j : nat, Z.of_nat j <> k ->
                  nth_error (ControlPoints (SetNthControlPointPositionWorld n p s)) j
                  = nth_error (ControlPoints s) j).
  { intros n p. split; [apply SetNth_only_store |]. split; [apply SetNth_length |].
    exists n. intros j Hj. now apply SetNth_nth_error_other. }
  split.
  - intros H. unfold SetInnerRadius, SetOuterRadius.
    destruct (ShapeName s =? Disk)%Z eqn:Ek; simpl; [| split; reflexivity].
    destruct (radius <=? Fin 0)%D eqn:Er; [split; reflexivity |].
    apply Z.eqb_eq in Ek.
    destruct H as [H | [H | H]]; [contradiction | discriminate |].
    rewrite Describe_fails by (now right). split; reflexivity.
  - intros s' [-> | ->]; [unfold SetInnerRadius | unfold SetOuterRadius];
      (destruct (negb (ShapeName s =? Disk)%Z); [exact Hsame |]);
      (destruct (radius <=? Fin 0)%D; [exact Hsame |]);
      (destruct (DescribeDiskPointSpacing s) as [d |]; [| exact Hsame]).
    + destruct (radius >=? outerRadius d)%D; [exact Hsame | apply Hset].
    + destruct (radius <=? innerRadius d)%D; [exact Hsame | apply Hset].
Qed.

End DiskRadiusMore.

(* ================================================================== *)
(** ** Reslicing: what it leaves alone, and a sphere at the origin *)

Section ResliceMore.
Local Open Scope R_scope.

Lemma ResliceToLine_cases (s : ShapeNode) :
  ResliceToLine s = s
  \/ (exists previous, ResliceNode s = Some (SliceNode previous))
     /\ is_zero_vector (vtkMath.Cross (position_at s 0) (position_at s 1)) = false
     /\ ResliceToLine s
        = reslice_with (vtkMath.Cross (position_at s 0) (position_at s 1))
            (position_at s 1) (position_at s 0) s.
Proof.
  unfold ResliceToLine.
  destruct (ResliceNode s) as [[previous |] |] eqn:En; auto.
  fold (position_at s 0). fold (position_at s 1).
  destruct (is_zero_vector (vtkMath.Cross (position_at s 0) (position_at s 1))) eqn:Ez;
    [auto |].
  right. split; [now exists previous |]. split; reflexivity.
Qed.

Lemma ResliceToPlane_cases (s : ShapeNode) :
  ResliceToPlane s = s
  \/ (exists previous, ResliceNode s = Some (SliceNode previous))
     /\ is_zero_vector
          (vtkMath.Cross (vsub (position_at s 1) (position_at s 0))
                         (vsub (position_at s 2) (position_at s 0))) = false
     /\ ResliceToPlane s
        = reslice_with
            (vtkMath.Cross (vsub (position_at s 1) (position_at s 0))
                           (vsub (position_at s 2) (position_at s 0)))
            (position_at s 1) (position_at s 0) s.
Proof.
  unfold ResliceToPlane.
  destruct (ResliceNode s) as [[previous |] |] eqn:En; auto.
  fold (position_at s 0). fold (position_at s 1). fold (position_at s 2).
  fold (vsub (position_at s 1) (position_at s 0)).
  fold (vsub (position_at s 2) (position_at s 0)).
  destruct (is_zero_vector _) eqn:Ez; [auto |].
  right. split; [now exists previous |]. split; reflexivity.
Qed.

Lemma ResliceToLine_again (s : ShapeNode) :
  ResliceToLine (ResliceToLine s) = ResliceToLine s.
Proof.
  destruct (ResliceToLine_cases s) as [E | ((previous & En) & Ez & E)].
  - now rewrite !E.
  - rewrite E.
    rewrite (ResliceToLine_slice (reslice_with _ _ _ s) _ eq_refl).
    change (position_at (reslice_with _ _ _ s) 0) with (position_at s 0).
    change (position_at (reslice_with _ _ _ s) 1) with (position_at s 1).
    rewrite Ez. reflexivity.
Qed.

Lemma ResliceToPlane_again (s : ShapeNode) :
  ResliceToPlane (ResliceToPlane s) = ResliceToPlane s.
Proof.
  destruct (ResliceToPlane_cases s) as [E | ((previous & En) & Ez & E)].
  - now rewrite !E.
  - rewrite E.
    rewrite (ResliceToPlane_slice (reslice_with _ _ _ s) _ eq_refl).
    change (position_at (reslice_with _ _ _ s) 0) with (position_at s 0).
    change (position_at (reslice_with _ _ _ s) 1) with (position_at s 1).
    change (position_at (reslice_with _ _ _ s) 2) with (position_at s 2).
    rewrite Ez. reflexivity.
Qed.

(** X10: [ResliceToControlPoints] changes nothing of the node but what
    the slice node records (no control point, no count, no flag), it
    does nothing at all without a slice node, and a second call right
    after the first changes nothing more. *)
Theorem ResliceToControlPoints_frame (s : ShapeNode) :
  let s' := ResliceToControlPoints s in
  s' = set_ResliceNode (ResliceNode s') s
  /\ (ResliceNode s = None \/ ResliceNode s = Some OtherNode -> s' = s)
  /\ ResliceToControlPoints s' = s'.
Proof.
  intros s'. subst s'.
  assert (Hself : s = set_ResliceNode (ResliceNode s) s) by now destruct s.
  split; [| split].
  - unfold ResliceToControlPoints.
    repeat match goal with |- context [if ?b then _ else _] => destruct b end;
      try exact Hself.
    + destruct (ResliceToLine_cases s) as [E | (_ & _ & E)]; rewrite E;
        [exact Hself | reflexivity].
    + destruct (ResliceToPlane_cases s) as [E | (_ & _ & E)]; rewrite E;
        [exact Hself | reflexivity].
    + destruct (ResliceToPlane_cases s) as [E | (_ & _ & E)]; rewrite E;
        [exact Hself | reflexivity].
  - apply ResliceToControlPoints_no_slice_node.
  - assert (HkL : ShapeName (ResliceToLine s) = ShapeName s)
      by (destruct (ResliceToLine_cases s) as [E | (_ & _ & E)]; now rewrite E).
    assert (HkP : ShapeName (ResliceToPlane s) = ShapeName s)
      by (destruct (ResliceToPlane_cases s) as [E | (_ & _ & E)]; now rewrite E).
    destruct (ShapeName s =? Sphere)%Z eqn:E1.
    { assert (E : ResliceToControlPoints s = ResliceToLine s)
        by (unfold ResliceToControlPoints; now rewrite E1).
      rewrite E. unfold ResliceToControlPoints. rewrite HkL, E1.
      apply ResliceToLine_again. }
    destruct (ShapeName s =? Ring)%Z eqn:E2.
    { assert (E : ResliceToControlPoints s = ResliceToPlane s)
        by (unfold ResliceToControlPoints; now rewrite E1, E2).
      rewrite E. unfold ResliceToControlPoints. rewrite HkP, E1, E2.
      apply ResliceToPlane_again. }
    destruct (ShapeName s =? Disk)%Z eqn:E3.
    { assert (E : ResliceToControlPoints s = ResliceToPlane s)
        by (unfold ResliceToControlPoints; now rewrite E1, E2, E3).
      rewrite E. unfold ResliceToControlPoints. rewrite HkP, E1, E2, E3.
      apply ResliceToPlane_again. }
    assert (E : ResliceToControlPoints s = s)
      by (unfold ResliceToControlPoints; rewrite E1, E2, E3;
          destruct (ShapeName s =? Tube)%Z; reflexivity).
    now rewrite !E.
Qed.

(** X11: a sphere that has a control point at the origin is never
    resliced, wherever its other point is on real coordinates.
    [ResliceToLine] takes the cross product of the two positions as
    vectors from the origin; with the origin as one of them every
    product is a zero, the normal is the zero vector and the function
    returns before it touches the slice node. *)
Theorem ResliceToControlPoints_sphere_at_origin
    (s : ShapeNode) (previous : option (Vec3 * Vec3 * Vec3 * Z)) (x y z : R) :
  ResliceNode s = Some (SliceNode previous) ->
  ShapeName s = Sphere ->
  (position_at s 0 = real3 0 0 0 /\ position_at s 1 = real3 x y z)
  \/ (position_at s 0 = real3 x y z /\ position_at s 1 = real3 0 0 0) ->
  ResliceToControlPoints s = s.
Proof.
  intros Hn Hk H.
  assert (Hc : vtkMath.Cross (position_at s 0) (position_at s 1) = real3 0 0 0).
  { destruct H as [[-> ->] | [-> ->]]; rewrite Cross_real3;
      unfold real3; f_equal; f_equal; ring. }
  unfold ResliceToControlPoints. rewrite Hk. simpl.
  rewrite (ResliceToLine_slice s previous Hn), Hc.
  replace (is_zero_vector _) with true; [reflexivity |].
  symmetry. apply is_zero_vector_real3. auto.
Qed.

(** The sphere from (2,3,4) to the origin is not resliced. *)
Lemma ResliceToControlPoints_sphere_at_origin_witness :
  let s := set_ResliceNode (Some (SliceNode None))
             (node_with Sphere Centered [placed 2 3 4; placed 0 0 0]) in
  ResliceToControlPoints s = s.
Proof.
  intros s.
  apply (ResliceToControlPoints_sphere_at_origin s None 2 3 4);
    [reflexivity | reflexivity | right; split; reflexivity].
Defined.

End ResliceMore.

(* ================================================================== *)
(** ** Tube pairing: a whole removal, and what the callback never does *)

Section TubePairingMore.
Local Open Scope Z_scope.

Lemma remove_nth_twice_same {A : Type} (l : list A) (k : nat) :
  remove_nth (remove_nth l k) k = firstn k l ++ skipn (k + 2) l.
Proof.
  revert k. induction l as [| a l IH]; intros [| k]; simpl; try reflexivity.
  - destruct l; reflexivity.
  - now rewrite IH.
Qed.

Lemma remove_nth_twice_previous {A : Type} (l : list A) (k : nat) :
  remove_nth (remove_nth l (S k)) k = firstn k l ++ skipn (k + 2) l.
Proof.
  revert k. induction l as [| a l IH]; intros [| k]; simpl; try reflexivity.
  - destruct l; reflexivity.
  - now rewrite IH.
Qed.

Lemma remove_nth_all_defined (l : list ControlPoint) (k : nat) :
  forallb Defined l = true -> forallb Defined (remove_nth l k) = true.
Proof.
  revert k. induction l as [| c l IH]; intros [| k] H; simpl in *; try reflexivity.
  - apply andb_prop in H as [_ H]. exact H.
  - apply andb_prop in H as [H1 H2]. rewrite H1. simpl. now apply IH.
Qed.

Lemma RemoveNth_ShapeName (s : ShapeNode) (n : Z) :
  ShapeName (RemoveNthControlPoint n s) = ShapeName s.
Proof. unfold RemoveNthControlPoint. destruct (valid_index _ n); reflexivity. Qed.

Lemma RemoveNth_all_defined (s : ShapeNode) (n : Z) :
  forallb Defined (ControlPoints s) = true ->
  forallb Defined (ControlPoints (RemoveNthControlPoint n s)) = true.
Proof.
  intros H. unfold RemoveNthControlPoint.
  destruct (valid_index _ n); [| assumption]. simpl. now apply remove_nth_all_defined.
Qed.

Lemma pair_first_even (n : Z) : exists k, pair_first n = 2 * k.
Proof.
  unfold pair_first. destruct (Z.even n) eqn:E.
  - apply Z.even_spec in E. exact E.
  - rewrite <- Z.negb_odd in E. apply negb_false_iff in E.
    apply Z.odd_spec in E. destruct E as [k ->]. exists k. lia.
Qed.

(** X12: a tube holds an even number of control points, all defined,
    and no pair removal is pending.  The host removes the point of a
    valid index [i] and the callback runs for [i]: the store is then
    the former one without the two points of the pair of [i], and the
    flag is set.  The notification raised by the callback's own removal
    (whatever index it carries) clears the flag and removes nothing: the
    tube is left with two points fewer, an even number again. *)
Theorem tube_pair_removal (s : ShapeNode) (i j : Z) :
  ShapeName s = Tube ->
  RemovingPairControlPoint s = false ->
  forallb Defined (ControlPoints s) = true ->
  Z.even (Z.of_nat (length (ControlPoints s))) = true ->
  0 <= i < Z.of_nat (length (ControlPoints s)) ->
  let s1 := OnPointPositionUndefined i (RemoveNthControlPoint i s) in
  let s2 := OnPointPositionUndefined j s1 in
  ControlPoints s1
  = firstn (Z.to_nat (pair_first i)) (ControlPoints s)
    ++ skipn (Z.to_nat (pair_first i) + 2) (ControlPoints s)
  /\ RemovingPairControlPoint s1 = true
  /\ s2 = set_RemovingPairControlPoint false s1
  /\ Z.of_nat (length (ControlPoints s2)) = Z.of_nat (length (ControlPoints s)) - 2
  /\ Z.even (Z.of_nat (length (ControlPoints s2))) = true.
Proof.
  intros Hk Hf Hd He Hi s1 s2.
  set (l := ControlPoints s) in *.
  set (s0 := RemoveNthControlPoint i s).
  assert (Hl0 : ControlPoints s0 = remove_nth l (Z.to_nat i))
    by (unfold s0; apply RemoveNthControlPoint_points; lia).
  assert (Hlen0 : length (ControlPoints s0) = pred (length l))
    by (rewrite Hl0; apply remove_nth_length; lia).
  assert (Hk0 : ShapeName s0 = Tube) by (unfold s0; now rewrite RemoveNth_ShapeName).
  assert (Hf0 : RemovingPairControlPoint s0 = false)
    by (unfold s0; now rewrite RemoveNthControlPoint_flag).
  assert (Hd0 : forallb Defined (ControlPoints s0) = true)
    by (unfold s0; now apply RemoveNth_all_defined).
  assert (Hu0 : GetNumberOfUndefinedControlPoints s0 = 0)
    by now apply undefined_zero_all_defined.
  assert (Hlen2 : 2 <= Z.of_nat (length l)).
  { destruct (Z.eq_dec (Z.of_nat (length l)) 1) as [E |]; [| lia].
    rewrite E in He. discriminate. }
  assert (Hne0 : ControlPoints s0 <> []).
  { intros E. rewrite E in Hlen0. simpl in Hlen0. lia. }
  assert (Hpf : 0 <= pair_first i /\ pair_first i + 2 <= Z.of_nat (length l)
                /\ (pair_first i = i \/ pair_first i = i - 1)).
  { unfold pair_first. destruct (Z.even i) eqn:Ei.
    - split; [lia |]. split; [| now left].
      destruct (Z.eq_dec (i + 1) (Z.of_nat (length l))) as [E |]; [| lia].
      rewrite <- E, Z.even_add, Ei in He. discriminate.
    - split; [| split; [lia | now right]].
      destruct (Z.eq_dec i 0) as [-> |]; [discriminate | lia]. }
  destruct Hpf as (Hp0 & Hp2 & _).
  assert (Hs1 : ControlPoints s1
                = firstn (Z.to_nat (pair_first i)) l
                  ++ skipn (Z.to_nat (pair_first i) + 2) l
                /\ RemovingPairControlPoint s1 = true
                /\ ShapeName s1 = Tube).
  { unfold s1. fold s0.
    rewrite (OnPointPositionUndefined_step s0 i Hk0 Hu0 Hf0 Hne0) by lia.
    unfold pair_first in *. destruct (Z.even i) eqn:Ei.
    - replace (i <? Z.of_nat (length (ControlPoints s0))) with true by lia.
      rewrite RemoveNthControlPoint_flag, RemoveNth_ShapeName,
        RemoveNthControlPoint_points by lia.
      simpl. rewrite Hl0. split; [apply remove_nth_twice_same |]. split; [reflexivity |].
      exact Hk0.
    - rewrite RemoveNthControlPoint_flag, RemoveNth_ShapeName,
        RemoveNthControlPoint_points by lia.
      simpl. rewrite Hl0. split; [| split; [reflexivity | exact Hk0]].
      replace (Z.to_nat i) with (S (Z.to_nat (i - 1))) by lia.
      apply remove_nth_twice_previous. }
  destruct Hs1 as (Hc1 & Hf1 & Hk1).
  assert (Hd1 : forallb Defined (ControlPoints s1) = true).
  { rewrite Hc1, forallb_app.
    rewrite <- (firstn_skipn (Z.to_nat (pair_first i)) l), forallb_app in Hd.
    apply andb_prop in Hd as [Ha Hb]. rewrite Ha. simpl.
    replace (Z.to_nat (pair_first i) + 2)%nat with (2 + Z.to_nat (pair_first i))%nat by lia.
    rewrite <- skipn_skipn.
    rewrite <- (firstn_skipn 2 (skipn _ l)), forallb_app in Hb.
    now apply andb_prop in Hb as [_ Hb]. }
  assert (Hs2 : s2 = set_RemovingPairControlPoint false s1).
  { unfold s2. apply OnPointPositionUndefined_guard; [exact Hk1 | | now left].
    now apply undefined_zero_all_defined. }
  assert (Hlen : Z.of_nat (length (ControlPoints s2)) = Z.of_nat (length l) - 2).
  { rewrite Hs2. simpl. rewrite Hc1, length_app, length_firstn, length_skipn. lia. }
  split; [exact Hc1 |]. split; [exact Hf1 |]. split; [exact Hs2 |].
  split; [exact Hlen |].
  rewrite Hlen. rewrite Z.even_sub, He. reflexivity.
Qed.

(** The host removes index 3 of the six-point tube: points 2 and 3 go. *)
Lemma tube_pair_removal_witness :
  ControlPoints (OnPointPositionUndefined 3 (RemoveNthControlPoint 3 tube_six))
  = [placed 0 0 0; placed 1 0 0; placed 4 0 0; placed 5 0 0]
  /\ OnPointPositionUndefined 2
       (OnPointPositionUndefined 3 (RemoveNthControlPoint 3 tube_six))
     = set_RemovingPairControlPoint false
         (OnPointPositionUndefined 3 (RemoveNthControlPoint 3 tube_six)).
Proof.
  assert (Hi : 0 <= 3 < Z.of_nat (length (ControlPoints tube_six))) by (simpl; lia).
  destruct (tube_pair_removal tube_six 3 2 eq_refl eq_refl eq_refl eq_refl Hi)
    as (Hc & _ & Hs & _).
  split; [exact Hc | exact Hs].
Defined.

(** X13: the callback does nothing at all on a shape that is not a tube
    and on a node with an undefined control point.  In every case it
    removes at most one control point, never adds or moves one, and
    touches no member of the node but the store and the removal flag. *)
Theorem OnPointPositionUndefined_frame (s : ShapeNode) (i : Z) :
  let s' := OnPointPositionUndefined i s in
  (ShapeName s <> Tube \/ 0 < GetNumberOfUndefinedControlPoints s -> s' = s)
  /\ (ControlPoints s' = ControlPoints s
      \/ exists k, (k < length (ControlPoints s))%nat
                   /\ ControlPoints s' = remove_nth (ControlPoints s) k)
  /\ s' = set_RemovingPairControlPoint (RemovingPairControlPoint s')
            (set_ControlPoints (ControlPoints s') s).
Proof.
  intros s'. subst s'.
  assert (Hrem : forall n b,
             let t := RemoveNthControlPoint n (set_RemovingPairControlPoint b s) in
             (ControlPoints t = ControlPoints s
              \/ exists k, (k < length (ControlPoints s))%nat
                           /\ ControlPoints t = remove_nth (ControlPoints s) k)
             /\ t = set_RemovingPairControlPoint (RemovingPairControlPoint t)
                      (set_ControlPoints (ControlPoints t) s)).
  { intros n b t. subst t. unfold RemoveNthControlPoint. simpl.
    destruct (valid_index (ControlPoints s) n) as [k |] eqn:E.
    - apply valid_index_Some in E as [_ Hk]. split; [| reflexivity].
      right. exists k. split; [assumption | reflexivity].
    - split; [now left | now destruct s]. }
  assert (Hflag : forall b,
             let t := set_RemovingPairControlPoint b s in
             (ControlPoints t = ControlPoints s
              \/ exists k, (k < length (ControlPoints s))%nat
                           /\ ControlPoints t = remove_nth (ControlPoints s) k)
             /\ t = set_RemovingPairControlPoint (RemovingPairControlPoint t)
                      (set_ControlPoints (ControlPoints t) s)).
  { intros b t. subst t. split; [now left | now destruct s]. }
  split.
  - intros H. unfold OnPointPositionUndefined.
    destruct (ShapeName s =? Tube) eqn:Ek; [| reflexivity]. simpl.
    apply Z.eqb_eq in Ek.
    destruct H as [H | H]; [contradiction |].
    replace (GetNumberOfUndefinedControlPoints s >? 0) with true by lia. reflexivity.
  - unfold OnPointPositionUndefined.
    destruct (negb (ShapeName s =? Tube) || (GetNumberOfUndefinedControlPoints s >? 0)).
    { split; [now left | now destruct s]. }
    destruct (RemovingPairControlPoint s || (GetNumberOfControlPoints s =? 0));
      [apply Hflag |].
    destruct (Z.rem i 2 =? 0); [| apply Hrem].
    destruct (GetNumberOfControlPoints s >? i); [apply Hrem | apply Hflag].
Qed.

End TubePairingMore.

(* ================================================================== *)
(** ** The radius of a tube pair: either index, and the other pairs *)

Section TubeRadiusMore.
Local Open Scope Z_scope.

Lemma pair_first_succ_even (n : Z) : Z.even n = true -> pair_first (n + 1) = n.
Proof.
  intros E. unfold pair_first. rewrite Z.even_add, E. simpl. lia.
Qed.

Lemma pair_first_of_even (n : Z) : Z.even n = true -> pair_first n = n.
Proof. intros E. unfold pair_first. now rewrite E. Qed.

Lemma radius_precondition_partner (s : ShapeNode) (n : Z) :
  Z.even n = true -> radius_precondition s n -> radius_precondition s (n + 1).
Proof.
  intros E Hp. pose proof (pair_first_bounds s n Hp) as [_ Hb].
  rewrite (pair_first_of_even n E) in Hb.
  destruct Hp as (Hn & Hu & H4 & He & Hlt).
  pose proof (defined_plus_undefined s false) as Hsum.
  unfold GetNumberOfControlPoints in Hsum.
  repeat split; try assumption; lia.
Qed.

(** The two indices of a pair are answered alike. *)
Lemma GetRadius_partner (s : ShapeNode) (n : Z) :
  0 <= n -> Z.even n = true ->
  GetRadiusAtNthControlPoint s (n + 1) = GetRadiusAtNthControlPoint s n.
Proof.
  intros Hn E.
  destruct (Z.eq_dec (ShapeName s) Tube) as [Hk | Hk];
    [| now rewrite !GetRadius_not_tube].
  destruct (radius_precondition_dec s n) as [Hp | Hbad].
  - rewrite (GetRadius_ok s n Hk Hp).
    rewrite (GetRadius_ok s (n + 1) Hk (radius_precondition_partner s n E Hp)).
    rewrite !pair_positions_first by lia.
    now rewrite (pair_first_succ_even n E), (pair_first_of_even n E).
  - assert (Hfail : GetRadiusAtNthControlPoint s n = Fin (-1))
      by now apply GetRadius_fail_iff.
    rewrite Hfail. apply GetRadius_fail_iff; [assumption |].
    destruct Hbad as [? | [? | [? | [? | ?]]]]; [lia | auto | auto | auto |].
    right; right; right; right. lia.
Qed.

(** X14: [GetRadiusAtNthControlPoint] answers the same for the two
    indices of a pair, be it a radius or the failure value: for every
    [n >= 0], the answer for [n] is the answer for the first index of
    its pair and for the second one. *)
Theorem GetRadiusAtNthControlPoint_pair (s : ShapeNode) (n : Z) :
  0 <= n ->
  GetRadiusAtNthControlPoint s n = GetRadiusAtNthControlPoint s (pair_first n)
  /\ GetRadiusAtNthControlPoint s n = GetRadiusAtNthControlPoint s (pair_first n + 1).
Proof.
  intros Hn. unfold pair_first. destruct (Z.even n) eqn:E.
  - split; [reflexivity |]. symmetry. now apply GetRadius_partner.
  - assert (E' : Z.even (n - 1) = true).
    { rewrite Z.even_sub, E. reflexivity. }
    assert (Hn' : 0 <= n - 1) by (destruct (Z.eq_dec n 0) as [-> |]; [discriminate | lia]).
    pose proof (GetRadius_partner s (n - 1) Hn' E') as H.
    replace (n - 1 + 1) with n in * by lia. split; [exact H | reflexivity].
Qed.

(** On [tube_four] the indices 2 and 3 name one pair. *)
Lemma GetRadiusAtNthControlPoint_pair_witness :
  GetRadiusAtNthControlPoint tube_four 3 = GetRadiusAtNthControlPoint tube_four 2.
Proof.
  assert (Hn : 0 <= 3) by lia.
  destruct (GetRadiusAtNthControlPoint_pair tube_four 3 Hn) as [H _]. exact H.
Defined.

Lemma SetRadiusAt_partner (s : ShapeNode) (n : Z) (radius : double) :
  0 <= n -> Z.even n = true ->
  SetRadiusAtNthControlPoint (n + 1) radius s = SetRadiusAtNthControlPoint n radius s.
Proof.
  intros Hn E. unfold SetRadiusAtNthControlPoint.
  rewrite (GetRadius_partner s n Hn E).
  destruct (radius <=? Fin 0)%D; [reflexivity |].
  destruct (GetRadiusAtNthControlPoint s n <=? Fin 0)%D; [reflexivity |].
  rewrite !pair_positions_first by lia.
  rewrite (pair_first_succ_even n E), (pair_first_of_even n E).
  rewrite !rem_2_even by lia. rewrite Z.even_add, E. simpl.
  replace (n + 1 - 1) with n by lia.
  apply SetNth_comm. lia.
Qed.

(** X15: [SetRadiusAtNthControlPoint] does the same through either
    index of a pair: for every [n >= 0] and every radius, the node it
    gives for [n] is the node it gives for the first index of the pair
    of [n] and for the second one. *)
Theorem SetRadiusAtNthControlPoint_pair (s : ShapeNode) (n : Z) (radius : double) :
  0 <= n ->
  SetRadiusAtNthControlPoint n radius s
  = SetRadiusAtNthControlPoint (pair_first n) radius s
  /\ SetRadiusAtNthControlPoint n radius s
     = SetRadiusAtNthControlPoint (pair_first n + 1) radius s.
Proof.
  intros Hn. unfold pair_first. destruct (Z.even n) eqn:E.
  - split; [reflexivity |]. symmetry. now apply SetRadiusAt_partner.
  - assert (E' : Z.even (n - 1) = true).
    { rewrite Z.even_sub, E. reflexivity. }
    assert (Hn' : 0 <= n - 1) by (destruct (Z.eq_dec n 0) as [-> |]; [discriminate | lia]).
    pose proof (SetRadiusAt_partner s (n - 1) radius Hn' E') as H.
    replace (n - 1 + 1) with n in * by lia. split; [exact H | reflexivity].
Qed.

Lemma SetRadiusAtNthControlPoint_pair_witness :
  SetRadiusAtNthControlPoint 3 (Fin 1) tube_four
  = SetRadiusAtNthControlPoint 2 (Fin 1) tube_four.
Proof.
  assert (Hn : 0 <= 3) by lia.
  destruct (SetRadiusAtNthControlPoint_pair tube_four 3 (Fin 1) Hn) as [H _]. exact H.
Defined.

(** Either [SetRadiusAtNthControlPoint] returns the node as it is, or
    the precondition of the read holds and the two points of the pair
    are written. *)
Lemma SetRadiusAt_cases (s : ShapeNode) (n : Z) (radius : double) :
  SetRadiusAtNthControlPoint n radius s = s
  \/ (ShapeName s = Tube /\ radius_precondition s n
      /\ exists p1New p2New,
           SetRadiusAtNthControlPoint n radius s
           = SetNthControlPointPositionWorld (pair_first n + 1) p2New
               (SetNthControlPointPositionWorld (pair_first n) p1New s)).
Proof.
  unfold SetRadiusAtNthControlPoint.
  destruct (radius <=? Fin 0)%D; [now left |].
  destruct (GetRadiusAtNthControlPoint s n <=? Fin 0)%D eqn:Ec; [now left |].
  right.
  assert (Hok : GetRadiusAtNthControlPoint s n <> Fin (-1)).
  { intros E. rewrite E in Ec. rewrite dle_Fin_true in Ec by lra. discriminate. }
  assert (Hk : ShapeName s = Tube).
  { destruct (Z.eq_dec (ShapeName s) Tube) as [Hk | Hk]; [assumption |].
    exfalso. apply Hok. now apply GetRadius_not_tube. }
  assert (Hp : radius_precondition s n).
  { destruct (radius_precondition_dec s n) as [Hp | Hbad]; [assumption |].
    exfalso. apply Hok. now apply GetRadius_fail_iff. }
  split; [assumption |]. split; [assumption |].
  assert (Hn : 0 <= n) by apply Hp.
  destruct (pair_positions s n) as [p1 p2].
  rewrite rem_2_even by assumption. unfold pair_first.
  destruct (Z.even n) eqn:E.
  - eexists. eexists. reflexivity.
  - replace (n - 1 + 1) with n by lia.
    eexists. eexists. apply SetNth_comm. lia.
Qed.

(** X16: [SetRadiusAtNthControlPoint(n, radius)] keeps the number of
    control points, and the answer of [GetRadiusAtNthControlPoint] for
    every index of another pair is what it was. *)
Theorem SetRadiusAtNthControlPoint_other_pairs
    (s : ShapeNode) (n m : Z) (radius : double) :
  pair_first m <> pair_first n ->
  let s' := SetRadiusAtNthControlPoint n radius s in
  length (ControlPoints s') = length (ControlPoints s)
  /\ GetRadiusAtNthControlPoint s' m = GetRadiusAtNthControlPoint s m.
Proof.
  intros Hmn s'. subst s'.
  destruct (SetRadiusAt_cases s n radius) as [E | (Hk & Hp & p1New & p2New & E)];
    rewrite E; [split; reflexivity |].
  split; [now rewrite !SetNth_length |].
  set (s' := SetNthControlPointPositionWorld (pair_first n + 1) p2New
               (SetNthControlPointPositionWorld (pair_first n) p1New s)).
  assert (Hk' : ShapeName s' = Tube) by (unfold s'; now rewrite !SetNth_ShapeName).
  assert (Hd : forallb Defined (ControlPoints s) = true)
    by (apply undefined_zero_all_defined; apply Hp).
  assert (Hd' : forallb Defined (ControlPoints s') = true)
    by (unfold s'; now do 2 apply SetNth_all_defined).
  assert (Hlen : length (ControlPoints s') = length (ControlPoints s))
    by (unfold s'; now rewrite !SetNth_length).
  assert (Hcount : GetNumberOfDefinedControlPoints false s'
                   = GetNumberOfDefinedControlPoints false s)
    by (rewrite !all_defined_count by assumption; now rewrite Hlen).
  assert (Hundef : GetNumberOfUndefinedControlPoints s'
                   = GetNumberOfUndefinedControlPoints s).
  { apply undefined_zero_all_defined in Hd, Hd'. now rewrite Hd, Hd'. }
  destruct (radius_precondition_dec s m) as [Hpm | Hbad].
  - assert (Hpm' : radius_precondition s' m)
      by (unfold s'; now do 2 apply SetNth_radius_precondition).
    assert (Hm : 0 <= m) by apply Hpm.
    rewrite (GetRadius_ok s' m Hk' Hpm'), (GetRadius_ok s m Hk Hpm).
    rewrite !pair_positions_first by assumption.
    destruct (pair_first_even m) as [a Ha]. destruct (pair_first_even n) as [b Hb].
    unfold s', position_at.
    rewrite !GetNth_SetNth_other by lia. reflexivity.
  - assert (Hfail : GetRadiusAtNthControlPoint s m = Fin (-1))
      by now apply GetRadius_fail_iff.
    rewrite Hfail. apply GetRadius_fail_iff; [assumption |].
    now rewrite Hcount, Hundef.
Qed.

(** On [tube_four], resizing the first pair leaves the radius of the
    second pair as it was. *)
Lemma SetRadiusAtNthControlPoint_other_pairs_witness :
  GetRadiusAtNthControlPoint (SetRadiusAtNthControlPoint 0 (Fin 1) tube_four) 3
  = GetRadiusAtNthControlPoint tube_four 3.
Proof.
  assert (H : pair_first 3 <> pair_first 0) by discriminate.
  destruct (SetRadiusAtNthControlPoint_other_pairs tube_four 0 3 (Fin 1) H) as [_ E].
  exact E.
Defined.

End TubeRadiusMore.
